(** * poetry [inspect] command: metadata gathering and rendering

    Shallow embedding of [src/poetry/console/commands/inspect.py].

    - Python [str] is [string]: a sequence of characters.  Case mapping
      ([str.capitalize], [str.lower]) is modelled on the ASCII letters.
    - A metadata [dict] is an association list in insertion order, with
      Python's update-in-place-or-append semantics for item assignment.
    - The console ([self.line], [self.line_error], [json.dump] to
      [sys.stderr], [self.table(...).render()]) is a trace of events.
    - Exceptions are the [Raise] case of [result]. *)

From Stdlib Require Import String Ascii List Bool Arith Lia.
Import ListNotations.
Open Scope string_scope.

(** ** Python string operations *)

Module Str.

Definition nl : string := String (ascii_of_nat 10) EmptyString.

Fixpoint map (f : ascii -> ascii) (s : string) : string :=
  match s with
  | EmptyString => EmptyString
  | String c r => String (f c) (map f r)
  end.

Fixpoint forallb (f : ascii -> bool) (s : string) : bool :=
  match s with
  | EmptyString => true
  | String c r => f c && forallb f r
  end.

Definition is_upper (c : ascii) : bool :=
  let n := nat_of_ascii c in ((65 <=? n) && (n <=? 90))%nat.

Definition is_lower (c : ascii) : bool :=
  let n := nat_of_ascii c in ((97 <=? n) && (n <=? 122))%nat.

Definition is_ascii (c : ascii) : bool := (nat_of_ascii c <? 128)%nat.

Definition lower_char (c : ascii) : ascii :=
  if is_upper c then ascii_of_nat (nat_of_ascii c + 32) else c.

Definition upper_char (c : ascii) : ascii :=
  if is_lower c then ascii_of_nat (nat_of_ascii c - 32) else c.

(** [s.replace(a, b)] for one-character [a] and [b]. *)
Definition replace_char (a b : ascii) (s : string) : string :=
  map (fun c => if Ascii.eqb c a then b else c) s.

(** [s.lower()] *)
Definition lower (s : string) : string := map lower_char s.

(** [s.capitalize()]: first character upper-cased, the rest lower-cased. *)
Definition capitalize (s : string) : string :=
  match s with
  | EmptyString => EmptyString
  | String c r => String (upper_char c) (lower r)
  end.

(** [sep.join(items)] *)
Fixpoint join (sep : string) (items : list string) : string :=
  match items with
  | [] => EmptyString
  | [x] => x
  | x :: rest => x ++ sep ++ join sep rest
  end.

(** [s[:n]] *)
Fixpoint slice_to (n : nat) (s : string) : string :=
  match n, s with
  | S n', String c r => String c (slice_to n' r)
  | _, _ => EmptyString
  end.

(** [s.split(sep)] for a one-character [sep]: cut at every occurrence;
    the result always has at least one part. *)
Fixpoint split (sep : ascii) (s : string) : list string :=
  match s with
  | EmptyString => [EmptyString]
  | String c r =>
      if Ascii.eqb c sep then EmptyString :: split sep r
      else match split sep r with
           | [] => [String c EmptyString]
           | p :: ps => String c p :: ps
           end
  end.

(** [x in xs] for a list or tuple of strings. *)
Definition mem (x : string) (xs : list string) : bool :=
  existsb (String.eqb x) xs.

End Str.

(** ** Metadata values and dictionaries *)

(** [str | list[str]]: the two shapes a metadata value takes.  A number
    (the test data has [metadata_version = 2.1]) is carried as the text
    that formatting it into a line gives. *)
Inductive Value : Type :=
| VStr (s : string)
| VList (items : list string).

(** A Python [dict[str, str | list[str]]], keys in insertion order. *)
Definition dict : Type := list (string * Value).

Module Dict.

Definition keys (d : dict) : list string := List.map fst d.

Fixpoint get (k : string) (d : dict) : option Value :=
  match d with
  | [] => None
  | (k', v) :: rest => if String.eqb k k' then Some v else get k rest
  end.

(** [k in d] *)
Definition contains (k : string) (d : dict) : bool := Str.mem k (keys d).

(** [d[k] = v]: overwrite in place when [k] is present, append otherwise. *)
Fixpoint set (k : string) (v : Value) (d : dict) : dict :=
  match d with
  | [] => [(k, v)]
  | (k', v') :: rest =>
      if String.eqb k k' then (k', v) :: rest else (k', v') :: set k v rest
  end.

(** [d.update(other)] *)
Definition update (d other : dict) : dict :=
  fold_left (fun acc kv => set (fst kv) (snd kv) acc) other d.

End Dict.

(** ** Exceptions and the console trace *)

Inductive exn : Type :=
| ValueError (msg : string).

Inductive result (A : Type) : Type :=
| Ok (a : A)
| Raise (e : exn).
Arguments Ok {A} a.
Arguments Raise {A} e.

(** A table row: the list of its cells. *)
Definition Row : Type := list string.
Definition Rows : Type := list Row.

Inductive event : Type :=
| Line (s : string)          (* self.line(s): standard output *)
| LineError (s : string)     (* self.line_error(s): error output *)
| JsonDump (d : dict)        (* json.dump(d, fp=sys.stderr) *)
| TableRender (rows : Rows). (* self.table(rows=rows, style="compact").render() *)

Definition on_stdout (e : event) : bool :=
  match e with
  | Line _ | TableRender _ => true
  | LineError _ | JsonDump _ => false
  end.

Definition stdout_of (t : list event) : list event := filter on_stdout t.

Definition stderr_of (t : list event) : list event :=
  filter (fun e => negb (on_stdout e)) t.

(** Console computations: the events emitted so far and how the call ended. *)
Definition io (A : Type) : Type := (list event * result A)%type.

Definition ret {A} (a : A) : io A := ([], Ok a).

Definition bind {A B} (m : io A) (f : A -> io B) : io B :=
  match m with
  | (t, Ok a) => let (t', r) := f a in ((t ++ t')%list, r)
  | (t, Raise e) => (t, Raise e)
  end.

Definition emit (e : event) : io unit := ([e], Ok tt).

Definition lift {A} (r : result A) : io A := ([], r).

Notation "x <- m ;; k" := (bind m (fun x => k))
  (at level 61, m at next level, right associativity).
Notation "m ;;; k" := (bind m (fun _ => k))
  (at level 61, right associativity).

(** ** Module-level constants and helpers of [inspect.py] *)

Definition DISPLAY_GAP_FOR_SAME_KEY : string := Str.nl ++ "   ".

Definition MAX_DISPLAY_LINE_LENGTH : nat := 79.

Definition SKIP_PROPERTIES : list string :=
  ["description"; "summary"; "metadata_version"].

Definition URL_PROPERTIES : list string := ["project_url"].

Definition LONG_PROPERTIES : list string := ["license"].

(** [name, url_ = url.split(",")]: unpacking into two names raises
    [ValueError] unless the split has exactly two parts. *)
Definition unpack2 (parts : list string) : result (string * string) :=
  match parts with
  | [a; b] => Ok (a, b)
  | [] | [_] =>
      Raise (ValueError "not enough values to unpack (expected 2, got 1)")
  | _ => Raise (ValueError "too many values to unpack (expected 2)")
  end.

(** The loop of [display_pretty_urls], building [res]. *)
Fixpoint display_pretty_urls_res (urls : list string) : result (list string) :=
  match urls with
  | [] => Ok []
  | url :: rest =>
      match unpack2 (Str.split ","%char url) with
      | Raise e => Raise e
      | Ok (name, url_) =>
          match display_pretty_urls_res rest with
          | Raise e => Raise e
          | Ok res => Ok (("<c1>" ++ name ++ "</> -" ++ url_) :: res)
          end
      end
  end.

Definition display_pretty_urls (urls : list string) : result string :=
  match display_pretty_urls_res urls with
  | Raise e => Raise e
  | Ok res => Ok (Str.join DISPLAY_GAP_FOR_SAME_KEY res)
  end.

Definition display_pretty_list (items : list string) : string :=
  Str.join DISPLAY_GAP_FOR_SAME_KEY items.

Definition prettify (s : string) : string :=
  Str.capitalize (Str.replace_char "_"%char " "%char s).

(** ** Collaborators *)

(** The attributes of a poetry-core [Package] that the command reads. *)
Record Package : Type := {
  name : string;
  pretty_name : string;
  pretty_version : string;
  description : string
}.

Record EntryPoint : Type := {
  ep_name : string;
  ep_value : string
}.

(** An [importlib.metadata.Distribution]: [metadata_json] is [None] when
    [d.metadata] has no [json] attribute. *)
Record Distribution : Type := {
  metadata_json : option dict;
  entry_points : list EntryPoint
}.

(** [self.poetry]: the root package and
    [self.poetry.locker.locked_repository().packages]. *)
Record Poetry : Type := {
  package : Package;
  locked_packages : list Package
}.

(** The options of one invocation: [--json], [--compact],
    [--list-properties] and the repeated [--property]. *)
Record Options : Type := {
  opt_json : bool;
  opt_compact : bool;
  opt_list_properties : bool;
  opt_property : list string
}.

(** ** Rendering *)

(** Lines 185-194 of [build_rows_from_metadata]: the cell text of one
    property. *)
Definition render_items (prop : string) (items : Value) : result string :=
  let joined :=
    if Str.mem prop URL_PROPERTIES then
      match items with
      | VList l => display_pretty_urls l
      | VStr s => Ok s
      end
    else
      match items with
      | VList l => Ok (display_pretty_list l)
      | VStr s => Ok s
      end in
  match joined with
  | Raise e => Raise e
  | Ok items' =>
      if Str.mem prop LONG_PROPERTIES
         && (MAX_DISPLAY_LINE_LENGTH <? String.length items')%nat
      then Ok (Str.slice_to MAX_DISPLAY_LINE_LENGTH items'
               ++ "... <comment>(use <info>-p " ++ prop
               ++ "</info> to see full " ++ prop ++ ")</comment>")
      else Ok items'
  end.

Fixpoint build_rows_from_metadata (data : dict) : result Rows :=
  match data with
  | [] => Ok []
  | (prop, items) :: rest =>
      if Str.mem prop SKIP_PROPERTIES then build_rows_from_metadata rest
      else
        match render_items prop items with
        | Raise e => Raise e
        | Ok items' =>
            match build_rows_from_metadata rest with
            | Raise e => Raise e
            | Ok rows =>
                Ok (["<info>" ++ prettify prop ++ "</>";
                     " : <b>" ++ items' ++ "</>"] :: rows)
            end
        end
  end.

(** The lines [display_normal] prints for one property that is not skipped. *)
Definition display_normal_block (key : string) (value : Value) : list event :=
  Line ("<b><info>" ++ prettify key ++ "</info></b>")
  :: match value with
     | VList l => List.map (fun item => Line ("<c1> - " ++ item ++ "</c1>")) l
     | VStr v => [Line ("<c2> " ++ v ++ "</c2>")]
     end
  ++ [Line EmptyString].

(** [props] is truthy when it is a non-empty list. *)
Definition truthy {A} (l : list A) : bool :=
  match l with [] => false | _ :: _ => true end.

Fixpoint display_normal (data : dict) (props : list string) : list event :=
  match data with
  | [] => []
  | (key, value) :: rest =>
      if Str.mem key SKIP_PROPERTIES && negb (truthy props)
      then display_normal rest props
      else if truthy props && negb (Str.mem key props)
      then display_normal rest props
      else (display_normal_block key value ++ display_normal rest props)%list
  end.

(** ** The command *)

Definition get_entry_points (dist : Distribution) : list string :=
  List.map (fun ep => ep_name ep ++ " source: " ++ ep_value ep)
           (entry_points dist).

(** The [--property] loop of [handle]: [inl prop] is the early
    [return 1] at the first [prop] not in the metadata; [inr d] is
    [display_metadata] after the loop. *)
Fixpoint select_properties (props : list string) (metadata display_metadata : dict)
  : string + dict :=
  match props with
  | [] => inr display_metadata
  | prop :: rest =>
      match Dict.get prop metadata with
      | None => inl prop
      | Some v => select_properties rest metadata (Dict.set prop v display_metadata)
      end
  end.

(** [a or b] on dictionaries: an empty dict is falsy. *)
Definition dict_or (a b : dict) : dict :=
  match a with [] => b | _ :: _ => a end.

Section Command.

(** [packaging.utils.canonicalize_name] *)
Variable canonicalize_name : string -> string.

(** [==] on packages: poetry-core's [Package.__eq__]. *)
Variable package_eq : Package -> Package -> bool.

(** [Distribution.from_name]; [None] is [PackageNotFoundError]. *)
Variable from_name : string -> option Distribution.

(** The [for locked in locked_packages] loop with its [break]. *)
Fixpoint first_locked (canonicalized_package : string)
         (locked : list Package) (pkg : Package) : Package :=
  match locked with
  | [] => pkg
  | l :: rest =>
      if String.eqb (name l) canonicalized_package then l
      else first_locked canonicalized_package rest pkg
  end.

(** [dep] is falsy when it is [None] or the empty string. *)
Definition _get_package_from_dependency (poetry : Poetry) (dep : option string)
  : result Package :=
  match dep with
  | None | Some EmptyString => Ok (package poetry)
  | Some d =>
      let pkg := first_locked (canonicalize_name d)
                              (locked_packages poetry) (package poetry) in
      if package_eq pkg (package poetry)
      then Raise (ValueError ("Package '" ++ d ++ "' not found"))
      else Ok pkg
  end.

Definition seeded (p : Package) : dict :=
  [("name", VStr (pretty_name p));
   ("version", VStr (pretty_version p));
   ("package_description", VStr (description p))].

(** [inspect_metadata] never raises: it returns what it printed and the
    record. *)
Definition inspect_metadata (p : Package) : list event * dict :=
  let metadata := seeded p in
  match from_name (name p) with
  | None =>
      ([Line ("<warning>Could not find package metadata for name: "
              ++ name p ++ ": showing basic info</>")],
       metadata)
  | Some d =>
      let (t, metadata) :=
        match metadata_json d with
        | Some json => ([], Dict.update metadata json)
        | None =>
            ([Line ("<error>Could not find distribution metadata: "
                    ++ name p ++ "</>")],
             metadata)
        end in
      let ep := get_entry_points d in
      (t, if truthy ep then Dict.set "entry_points" (VList ep) metadata
          else metadata)
  end.

Definition handle (poetry : Poetry) (dependency : option string)
           (opts : Options) : io nat :=
  pkg <- lift (_get_package_from_dependency poetry dependency) ;;
  let (t, metadata) := inspect_metadata pkg in
  (t, Ok tt) ;;;
  let available_properties := Dict.keys metadata in
  if opt_list_properties opts then
    let props :=
      Str.join Str.nl
               (List.map (fun x => "- " ++ x) available_properties) in
    emit (Line ("<b>Available properties for <info>" ++ name pkg
                ++ "</info> are:</b>")) ;;;
    emit (Line ("<info>" ++ props ++ "</info>")) ;;;
    ret 0
  else
    let props := opt_property opts in
    match select_properties props metadata [] with
    | inl prop =>
        emit (LineError ("<error>Property '" ++ prop
                         ++ "' not available.</error>")) ;;;
        ret 1
    | inr display_metadata =>
        let display_metadata := dict_or display_metadata metadata in
        (if opt_json opts then
           emit (JsonDump display_metadata)
         else if opt_compact opts then
           rows <- lift (build_rows_from_metadata display_metadata) ;;
           emit (TableRender rows)
         else
           (display_normal display_metadata props, Ok tt)) ;;;
        ret 0
    end.

End Command.

(** The record of [inspect_metadata] after the merge of the structured
    metadata and before the entry points are looked at. *)
Definition merged_metadata (p : Package) (d : Distribution) : dict :=
  match metadata_json d with
  | Some json => Dict.update (seeded p) json
  | None => seeded p
  end.

(** [display_metadata] as [handle] has it when rendering starts. *)
Definition display_metadata_of (props : list string) (metadata : dict) : dict :=
  match select_properties props metadata [] with
  | inr d => dict_or d metadata
  | inl _ => metadata
  end.

(** Number of occurrences of a character. *)
Fixpoint count_char (a : ascii) (s : string) : nat :=
  match s with
  | EmptyString => 0
  | String c r => (if Ascii.eqb c a then 1 else 0) + count_char a r
  end.

(** The keys of the dict obtained by assigning the items of [l] in order:
    every item once, at the place of its first occurrence. *)
Fixpoint first_occurrences (l : list string) : list string :=
  match l with
  | [] => []
  | x :: rest =>
      x :: filter (fun y => negb (String.eqb y x)) (first_occurrences rest)
  end.

(** The first cell of a table row. *)
Definition first_cell (r : Row) : string := hd EmptyString r.

(** The bullet of one property in the [--list-properties] text. *)
Definition bullet (x : string) : string := "- " ++ x.

(** ** Re-parsing the headers of Normal mode *)

Fixpoint strip_prefix (p s : string) : option string :=
  match p, s with
  | EmptyString, _ => Some s
  | String a p', String b s' =>
      if Ascii.eqb a b then strip_prefix p' s' else None
  | String _ _, EmptyString => None
  end.

Fixpoint strip_suffix (suf s : string) : option string :=
  if String.eqb s suf then Some EmptyString
  else match s with
       | EmptyString => None
       | String c r => option_map (String c) (strip_suffix suf r)
       end.

(** A header line is [<b><info>H</info></b>]; value lines and the blank
    separator are not. *)
Definition parse_header (line : string) : option string :=
  match strip_prefix "<b><info>" line with
  | None => None
  | Some r => strip_suffix "</info></b>" r
  end.

Definition headers_of (t : list event) : list string :=
  flat_map (fun e => match e with
                     | Line s => match parse_header s with
                                 | Some h => [h]
                                 | None => []
                                 end
                     | _ => []
                     end) t.

(** Reading the [--list-properties] text back: every piece is a key after
    its "- ". *)
Fixpoint strip_bullets (pieces : list string) : option (list string) :=
  match pieces with
  | [] => Some []
  | piece :: rest =>
      match strip_prefix "- " piece, strip_bullets rest with
      | Some k, Some ks => Some (k :: ks)
      | _, _ => None
      end
  end.

(** The keys listed by a line [<info>- k1\n- k2 ...</info>]. *)
Definition parse_property_list (line : string) : option (list string) :=
  match strip_prefix "<info>" line with
  | None => None
  | Some r =>
      match strip_suffix "</info>" r with
      | None => None
      | Some body => strip_bullets (Str.split (ascii_of_nat 10) body)
      end
  end.

(** The header reversal: lowercase, then spaces to underscores. *)
Definition unprettify (h : string) : string :=
  Str.replace_char " "%char "_"%char (Str.lower h).

(** Keys that survive [prettify]: ASCII, no uppercase letter, no space. *)
Definition plain_char (c : ascii) : bool :=
  Str.is_ascii c && negb (Str.is_upper c) && negb (Ascii.eqb c " "%char).

Definition plain_key (k : string) : bool := Str.forallb plain_char k.

(** ** Concrete collaborators, after [tests/console/commands/test_inspect.py] *)

Module Fixtures.

Definition is_sep (c : ascii) : bool :=
  Ascii.eqb c "-"%char || Ascii.eqb c "_"%char || Ascii.eqb c "."%char.

Fixpoint collapse_seps (after_sep : bool) (s : string) : string :=
  match s with
  | EmptyString => EmptyString
  | String c r =>
      if is_sep c then
        if after_sep then collapse_seps true r
        else String "-"%char (collapse_seps true r)
      else String c (collapse_seps false r)
  end.

(** [packaging.utils.canonicalize_name]: runs of [-], [_] and [.] become
    one [-], and the result is lower-cased. *)
Definition canonicalize_name (s : string) : string :=
  Str.lower (collapse_seps false s).

(** Package equality on the attributes of the model: same name and same
    version text.  poetry-core's [Package.__eq__] compares the name, the
    parsed version and the source; the two agree on packages of the same
    source whose versions are written in normal form, as in the test
    suite. *)
Definition package_eq (p q : Package) : bool :=
  String.eqb (name p) (name q)
  && String.eqb (pretty_version p) (pretty_version q).

Definition get_package (n v d : string) : Package :=
  {| name := n; pretty_name := n; pretty_version := v; description := d |}.

Definition simple_project : Package :=
  get_package "simple-project" "1.2.3" "Some description.".

Definition cachy_010 : Package := get_package "cachy" "0.1.0" "Cachy package".
Definition pendulum_200 : Package :=
  get_package "pendulum" "2.0.0" "Pendulum package".
Definition pytest_373 : Package := get_package "pytest" "3.7.3" "Pytest package".

Definition poetry : Poetry :=
  {| package := simple_project;
     locked_packages := [cachy_010; pendulum_200; pytest_373] |}.

Definition TEST_DATA : dict :=
  [("metadata_version", VStr "2.1");
   ("name", VStr "test-package-1");
   ("version", VStr "1.2.3");
   ("summary", VStr "this is a test package");
   ("author_email", VStr "testauthor@email.com");
   ("author", VStr "testauthor")].

(** [mocker.patch("importlib.metadata.Distribution.from_name", ...)] *)
Definition mocked (json : dict) (eps : list EntryPoint) (_ : string)
  : option Distribution :=
  Some {| metadata_json := Some json; entry_points := eps |}.

(** No distribution is installed. *)
Definition not_installed (_ : string) : option Distribution := None.

Definition no_options : Options :=
  {| opt_json := false; opt_compact := false;
     opt_list_properties := false; opt_property := [] |}.

End Fixtures.


(** * Properties *)

(** ** The runs of the test suite *)

Example test_inspect_basic_with_installed_packages :
  handle Fixtures.canonicalize_name Fixtures.package_eq Fixtures.not_installed
         Fixtures.poetry None Fixtures.no_options =
  ([Line "<warning>Could not find package metadata for name: simple-project: showing basic info</>";
    Line "<b><info>Name</info></b>"; Line "<c2> simple-project</c2>";
    Line EmptyString;
    Line "<b><info>Version</info></b>"; Line "<c2> 1.2.3</c2>";
    Line EmptyString;
    Line "<b><info>Package description</info></b>";
    Line "<c2> Some description.</c2>"; Line EmptyString],
   Ok 0).
Proof. reflexivity. Qed.

Example test_show_basic_compact :
  handle Fixtures.canonicalize_name Fixtures.package_eq
         (Fixtures.mocked Fixtures.TEST_DATA []) Fixtures.poetry None
         {| opt_json := false; opt_compact := true;
            opt_list_properties := false; opt_property := [] |} =
  ([TableRender
      [["<info>Name</>"; " : <b>test-package-1</>"];
       ["<info>Version</>"; " : <b>1.2.3</>"];
       ["<info>Package description</>"; " : <b>Some description.</>"];
       ["<info>Author email</>"; " : <b>testauthor@email.com</>"];
       ["<info>Author</>"; " : <b>testauthor</>"]]],
   Ok 0).
Proof. reflexivity. Qed.

Example test_show_basic_property_name :
  handle Fixtures.canonicalize_name Fixtures.package_eq
         (Fixtures.mocked Fixtures.TEST_DATA []) Fixtures.poetry None
         {| opt_json := false; opt_compact := false;
            opt_list_properties := false; opt_property := ["name"] |} =
  ([Line "<b><info>Name</info></b>"; Line "<c2> test-package-1</c2>";
    Line EmptyString],
   Ok 0).
Proof. reflexivity. Qed.

(** ** Dictionaries *)

Lemma mem_true_iff (x : string) (xs : list string) :
  Str.mem x xs = true <-> In x xs.
Proof.
  unfold Str.mem. rewrite existsb_exists. split.
  - intros [y [Hin Heq]]. apply String.eqb_eq in Heq. now subst.
  - intros Hin. exists x. split; [assumption | apply String.eqb_refl].
Qed.

Lemma mem_false_iff (x : string) (xs : list string) :
  Str.mem x xs = false <-> ~ In x xs.
Proof.
  rewrite <- mem_true_iff. destruct (Str.mem x xs); split; congruence.
Qed.

Lemma get_none_iff (k : string) (d : dict) :
  Dict.get k d = None <-> Dict.contains k d = false.
Proof.
  unfold Dict.contains, Dict.keys, Str.mem.
  induction d as [| [k' v] rest IH]; simpl.
  - tauto.
  - destruct (String.eqb k k'); simpl; [split; discriminate | exact IH].
Qed.

Lemma get_some_iff (k : string) (d : dict) :
  (exists v, Dict.get k d = Some v) <-> Dict.contains k d = true.
Proof.
  pose proof (get_none_iff k d) as H.
  destruct (Dict.get k d) as [v |]; destruct (Dict.contains k d).
  - split; [reflexivity | intros _; now exists v].
  - destruct H as [_ H]. discriminate (H eq_refl).
  - destruct H as [H _]. discriminate (H eq_refl).
  - split; [intros [v Hv]; discriminate | discriminate].
Qed.

Lemma get_set_same (k : string) (v : Value) (d : dict) :
  Dict.get k (Dict.set k v d) = Some v.
Proof.
  induction d as [| [k' v'] rest IH]; simpl.
  - now rewrite String.eqb_refl.
  - destruct (String.eqb k k') eqn:E; simpl; rewrite E; [reflexivity | exact IH].
Qed.

Lemma get_set_other (k k' : string) (v : Value) (d : dict) :
  k <> k' -> Dict.get k (Dict.set k' v d) = Dict.get k d.
Proof.
  intros Hne. induction d as [| [k0 v0] rest IH]; simpl.
  - apply String.eqb_neq in Hne. now rewrite Hne.
  - destruct (String.eqb k' k0) eqn:E; simpl.
    + apply String.eqb_eq in E. subst k0.
      apply String.eqb_neq in Hne. now rewrite Hne.
    + destruct (String.eqb k k0); [reflexivity | exact IH].
Qed.

Lemma get_update_absent (k : string) (other d : dict) :
  Dict.contains k other = false ->
  Dict.get k (Dict.update d other) = Dict.get k d.
Proof.
  unfold Dict.update. revert d.
  induction other as [| [k' v'] rest IH]; intros d Hk; simpl.
  - reflexivity.
  - unfold Dict.contains, Dict.keys, Str.mem in Hk. simpl in Hk.
    apply orb_false_elim in Hk. destruct Hk as [Hne Hrest].
    rewrite IH by exact Hrest.
    apply get_set_other. now apply String.eqb_neq.
Qed.

(** ** Strings *)

Lemma slice_to_length (n : nat) (s : string) :
  n <= String.length s -> String.length (Str.slice_to n s) = n.
Proof.
  revert s. induction n as [| n IH]; intros s Hle.
  - now destruct s.
  - destruct s as [| c r]; simpl in *; [lia |].
    f_equal. apply IH. lia.
Qed.

Lemma slice_to_prefix (n : nat) (s : string) :
  String.prefix (Str.slice_to n s) s = true.
Proof.
  revert s. induction n as [| n IH]; intros s.
  - now destruct s.
  - destruct s as [| c r]; simpl; [reflexivity |].
    destruct (ascii_dec c c) as [_ | Hne]; [apply IH | now elim Hne].
Qed.

Lemma slice_to_all (n : nat) (s : string) :
  String.length s <= n -> Str.slice_to n s = s.
Proof.
  revert s. induction n as [| n IH]; intros s Hle.
  - destruct s; simpl in *; [reflexivity | lia].
  - destruct s as [| c r]; simpl in *; [reflexivity |].
    f_equal. apply IH. lia.
Qed.

Lemma split_length (sep : ascii) (s : string) :
  List.length (Str.split sep s) = S (count_char sep s).
Proof.
  induction s as [| c r IH]; simpl; [reflexivity |].
  destruct (Ascii.eqb c sep); simpl.
  - now rewrite IH.
  - destruct (Str.split sep r) as [| p ps]; simpl in *; [discriminate | exact IH].
Qed.

Lemma split_no_sep (sep : ascii) (s : string) :
  count_char sep s = 0 -> Str.split sep s = [s].
Proof.
  induction s as [| c r IH]; simpl; [reflexivity |].
  destruct (Ascii.eqb c sep); [discriminate |].
  intros H. now rewrite IH.
Qed.

Lemma split_first_sep (sep : ascii) (a b : string) :
  count_char sep a = 0 ->
  Str.split sep (a ++ String sep b) = a :: Str.split sep b.
Proof.
  induction a as [| c r IH]; simpl.
  - intros _. now rewrite Ascii.eqb_refl.
  - destruct (Ascii.eqb c sep); [discriminate |].
    intros H. now rewrite IH.
Qed.

Lemma count_char_app (a : ascii) (s t : string) :
  count_char a (s ++ t) = count_char a s + count_char a t.
Proof.
  induction s as [| c r IH]; simpl; [reflexivity |]. rewrite IH. lia.
Qed.

(** ** Metadata gathering *)

(** C3: when the metadata provider does not find the package's
    distribution, [inspect_metadata] prints one warning line ("Could not
    find package metadata ..."), raises nothing (it is a total function
    returning a record), and returns exactly the three seeded entries:
    name = pretty_name, version = pretty_version, package_description =
    description. *)
Theorem inspect_metadata_not_found
        (from_name : string -> option Distribution) (p : Package) :
  from_name (name p) = None ->
  inspect_metadata from_name p =
  ([Line ("<warning>Could not find package metadata for name: "
          ++ name p ++ ": showing basic info</>")],
   [("name", VStr (pretty_name p));
    ("version", VStr (pretty_version p));
    ("package_description", VStr (description p))]).
Proof.
  intros Hnone. unfold inspect_metadata. now rewrite Hnone.
Qed.

Lemma inspect_metadata_not_found_witness :
  inspect_metadata Fixtures.not_installed Fixtures.simple_project =
  ([Line "<warning>Could not find package metadata for name: simple-project: showing basic info</>"],
   [("name", VStr "simple-project");
    ("version", VStr "1.2.3");
    ("package_description", VStr "Some description.")]).
Proof.
  apply (inspect_metadata_not_found Fixtures.not_installed Fixtures.simple_project).
  reflexivity.
Defined.

Lemma inspect_metadata_found
      (from_name : string -> option Distribution) (p : Package) (d : Distribution) :
  from_name (name p) = Some d ->
  snd (inspect_metadata from_name p) =
  if truthy (get_entry_points d)
  then Dict.set "entry_points" (VList (get_entry_points d)) (merged_metadata p d)
  else merged_metadata p d.
Proof.
  intros Hd. unfold inspect_metadata, merged_metadata. rewrite Hd.
  now destruct (metadata_json d).
Qed.

(** C9, as the claim states it, fails: a distribution without entry
    points whose structured metadata has an [entry_points] key (the key the
    test suite's [MockedDistribution] reads its entry points from) leaves
    that key in the record, here mapped to an empty list. *)
Lemma entry_points_key_from_json :
  let d := {| metadata_json := Some [("entry_points", VList [])];
              entry_points := [] |} in
  entry_points d = []
  /\ Dict.get "entry_points"
       (snd (inspect_metadata (fun _ => Some d) Fixtures.simple_project))
     = Some (VList []).
Proof. split; reflexivity. Qed.

(** C9 (amended): for a package whose distribution is found, when there
    is at least one entry point the record maps [entry_points] to the
    list of "<name> source: <value>" strings; when there is none nothing
    is attached, the record is the merged one, and the [entry_points] key
    is absent unless the structured metadata itself has that key. *)
Theorem entry_points_attached
        (from_name : string -> option Distribution) (p : Package) (d : Distribution) :
  from_name (name p) = Some d ->
  let record := snd (inspect_metadata from_name p) in
  (entry_points d <> [] ->
   Dict.get "entry_points" record =
   Some (VList (List.map (fun ep => ep_name ep ++ " source: " ++ ep_value ep)
                         (entry_points d))))
  /\ (entry_points d = [] ->
      record = merged_metadata p d
      /\ (match metadata_json d with
          | Some json => Dict.contains "entry_points" json = false
          | None => True
          end ->
          Dict.get "entry_points" record = None)).
Proof.
  intros Hd record. subst record. rewrite (inspect_metadata_found _ _ _ Hd).
  unfold get_entry_points. split.
  - intros Hne. destruct (entry_points d) as [| e es]; [congruence |].
    simpl truthy. cbv iota. apply get_set_same.
  - intros Hnil. rewrite Hnil. simpl. split; [reflexivity |].
    unfold merged_metadata. destruct (metadata_json d) as [json |].
    + intros Hjson. now rewrite get_update_absent.
    + reflexivity.
Qed.

Lemma entry_points_attached_witness :
  let ep := {| ep_name := "poetry"; ep_value := "poetry.console:main" |} in
  Dict.get "entry_points"
    (snd (inspect_metadata (Fixtures.mocked Fixtures.TEST_DATA [ep])
                           Fixtures.simple_project))
  = Some (VList ["poetry source: poetry.console:main"])
  /\ Dict.get "entry_points"
       (snd (inspect_metadata (Fixtures.mocked Fixtures.TEST_DATA [])
                              Fixtures.simple_project))
     = None.
Proof.
  intros ep. split.
  - apply (proj1 (entry_points_attached
                    (Fixtures.mocked Fixtures.TEST_DATA [ep])
                    Fixtures.simple_project _ eq_refl)).
    discriminate.
  - apply (proj2 (entry_points_attached
                    (Fixtures.mocked Fixtures.TEST_DATA [])
                    Fixtures.simple_project _ eq_refl));
      reflexivity.
Defined.

(** ** Compact mode *)

Lemma render_items_long (prop s : string) :
  Str.mem prop URL_PROPERTIES = false ->
  Str.mem prop LONG_PROPERTIES = true ->
  render_items prop (VStr s) =
  if (MAX_DISPLAY_LINE_LENGTH <? String.length s)%nat
  then Ok (Str.slice_to MAX_DISPLAY_LINE_LENGTH s
           ++ "... <comment>(use <info>-p " ++ prop
           ++ "</info> to see full " ++ prop ++ ")</comment>")
  else Ok s.
Proof.
  intros Hurl Hlong. unfold render_items. now rewrite Hurl, Hlong.
Qed.

(** The rows of a record are those of its entries, in order; the first
    entry that cannot be rendered decides the exception. *)
Lemma build_rows_app (pre post : dict) :
  build_rows_from_metadata (pre ++ post)%list =
  match build_rows_from_metadata pre with
  | Raise e => Raise e
  | Ok before =>
      match build_rows_from_metadata post with
      | Raise e => Raise e
      | Ok after => Ok (before ++ after)%list
      end
  end.
Proof.
  induction pre as [| [prop items] rest IH]; cbn [app build_rows_from_metadata].
  - now destruct (build_rows_from_metadata post).
  - destruct (Str.mem prop SKIP_PROPERTIES); [exact IH |].
    destruct (render_items prop items) as [text | e]; [| reflexivity].
    rewrite IH.
    destruct (build_rows_from_metadata rest) as [before | e]; [| reflexivity].
    now destruct (build_rows_from_metadata post).
Qed.

(** C5: in compact mode a [license] text longer than 79 characters is
    rendered as its first 79 characters followed by the fixed hint
    ("... (use -p license to see full license)", with its style tags); a
    text of at most 79 characters is rendered unchanged.  In the table of
    any record that has the [license] entry, whatever the entries before
    and after it, this text is the second cell of the License row, which
    stands between the rows of the entries before and those of the entries
    after. *)
Theorem license_truncation (s : string) :
  (79 < String.length s ->
   render_items "license" (VStr s) =
   Ok (Str.slice_to 79 s
       ++ "... <comment>(use <info>-p license</info> to see full license)</comment>")
   /\ String.length (Str.slice_to 79 s) = 79
   /\ String.prefix (Str.slice_to 79 s) s = true)
  /\ (String.length s <= 79 -> render_items "license" (VStr s) = Ok s)
  /\ (forall (pre post : dict) (text : string),
      render_items "license" (VStr s) = Ok text ->
      build_rows_from_metadata (List.app pre (("license", VStr s) :: post)) =
      match build_rows_from_metadata pre with
      | Raise e => Raise e
      | Ok before =>
          match build_rows_from_metadata post with
          | Raise e => Raise e
          | Ok after =>
              Ok (List.app before
                    (["<info>License</>"; " : <b>" ++ text ++ "</>"] :: after))
          end
      end).
Proof.
  assert (Hr := render_items_long "license" s eq_refl eq_refl).
  change MAX_DISPLAY_LINE_LENGTH with 79 in Hr.
  split; [| split].
  - intros Hlong. repeat split.
    + rewrite Hr. apply Nat.ltb_lt in Hlong. now rewrite Hlong.
    + apply slice_to_length. lia.
    + apply slice_to_prefix.
  - intros Hle. rewrite Hr.
    destruct (79 <? String.length s)%nat eqn:E; [| reflexivity].
    apply Nat.ltb_lt in E. lia.
  - intros pre post text Htext. rewrite build_rows_app.
    destruct (build_rows_from_metadata pre) as [before | e]; [| reflexivity].
    change (build_rows_from_metadata (("license", VStr s) :: post))
      with (match render_items "license" (VStr s) with
            | Raise e => Raise e
            | Ok items' =>
                match build_rows_from_metadata post with
                | Raise e => Raise e
                | Ok rows =>
                    Ok (["<info>" ++ prettify "license" ++ "</>";
                         " : <b>" ++ items' ++ "</>"] :: rows)
                end
            end).
    rewrite Htext.
    now destruct (build_rows_from_metadata post).
Qed.

Lemma license_truncation_witness :
  let long := "Permission is hereby granted, free of charge, to any person obtaining a copy of this software" in
  let cut := "Permission is hereby granted, free of charge, to any person obtaining a copy of... <comment>(use <info>-p license</info> to see full license)</comment>" in
  (render_items "license" (VStr long) = Ok cut
   /\ render_items "license" (VStr "MIT") = Ok "MIT")
  /\ build_rows_from_metadata
       [("name", VStr "test-package-1"); ("version", VStr "1.2.3");
        ("summary", VStr "this is a test package");
        ("license", VStr long);
        ("author", VStr "testauthor")] =
     Ok [["<info>Name</>"; " : <b>test-package-1</>"];
         ["<info>Version</>"; " : <b>1.2.3</>"];
         ["<info>License</>"; " : <b>" ++ cut ++ "</>"];
         ["<info>Author</>"; " : <b>testauthor</>"]].
Proof.
  intros long cut.
  assert (Hcut : render_items "license" (VStr long) = Ok cut).
  { apply (proj1 (license_truncation long)). vm_compute. lia. }
  split; [split |].
  - exact Hcut.
  - apply (proj1 (proj2 (license_truncation "MIT"))). vm_compute. lia.
  - exact (proj2 (proj2 (license_truncation long))
                 [("name", VStr "test-package-1"); ("version", VStr "1.2.3");
                  ("summary", VStr "this is a test package")]
                 [("author", VStr "testauthor")] cut Hcut).
Defined.

(** The URL rendering as the claim describes it, for items with exactly
    one comma. *)
Lemma display_pretty_urls_one_comma (pairs : list (string * string)) :
  (forall n u, In (n, u) pairs ->
               count_char ","%char n = 0 /\ count_char ","%char u = 0) ->
  display_pretty_urls
    (List.map (fun nu => fst nu ++ "," ++ snd nu) pairs) =
  Ok (Str.join DISPLAY_GAP_FOR_SAME_KEY
        (List.map (fun nu => "<c1>" ++ fst nu ++ "</> -" ++ snd nu) pairs)).
Proof.
  intros Hwf. unfold display_pretty_urls.
  assert (Hres : display_pretty_urls_res
            (List.map (fun nu => fst nu ++ "," ++ snd nu) pairs) =
          Ok (List.map (fun nu => "<c1>" ++ fst nu ++ "</> -" ++ snd nu) pairs)).
  { induction pairs as [| [n u] rest IH]; [reflexivity |].
    destruct (Hwf n u (or_introl eq_refl)) as [Hn Hu].
    cbn [List.map display_pretty_urls_res fst snd].
    change (n ++ "," ++ u) with (n ++ String ","%char u).
    rewrite (split_first_sep _ _ _ Hn), (split_no_sep _ _ Hu).
    cbn [unpack2]. rewrite IH; [reflexivity |].
    intros n' u' Hin. apply Hwf. now right. }
  now rewrite Hres.
Qed.

(** An item with a comma in its url part makes the whole rendering raise. *)
Lemma display_pretty_urls_comma_in_url (n u : string) (rest : list string) :
  count_char ","%char n = 0 ->
  0 < count_char ","%char u ->
  display_pretty_urls ((n ++ "," ++ u) :: rest) =
  Raise (ValueError "too many values to unpack (expected 2)").
Proof.
  intros Hn Hu. unfold display_pretty_urls.
  cbn [display_pretty_urls_res].
  change (n ++ "," ++ u) with (n ++ String ","%char u).
  rewrite (split_first_sep _ _ _ Hn).
  pose proof (split_length ","%char u) as Hlen.
  destruct (Str.split ","%char u) as [| p [| q ps]]; simpl in Hlen; try lia.
  reflexivity.
Qed.

(** C7: the code does not split on the first comma only.  A
    [project_url] item whose url part contains a comma splits into three
    parts, the two-name unpacking raises [ValueError], and the compact
    rendering of the whole command ends with that exception and prints no
    table. *)
Theorem project_url_with_comma_raises :
  let item := "Documentation,https://example.org/docs?tags=a,b" in
  let json := [("name", VStr "demo"); ("project_url", VList [item])] in
  let compact := {| opt_json := false; opt_compact := true;
                    opt_list_properties := false; opt_property := [] |} in
  Str.split ","%char item = ["Documentation"; "https://example.org/docs?tags=a"; "b"]
  /\ display_pretty_urls [item] =
     Raise (ValueError "too many values to unpack (expected 2)")
  /\ handle Fixtures.canonicalize_name Fixtures.package_eq
            (Fixtures.mocked json []) Fixtures.poetry None compact =
     ([], Raise (ValueError "too many values to unpack (expected 2)")).
Proof. repeat split. Qed.

(** ** Normal mode *)

Lemma string_length_app (s t : string) :
  String.length (s ++ t) = String.length s + String.length t.
Proof.
  induction s as [| c r IH]; simpl; [reflexivity | now rewrite IH].
Qed.

Lemma strip_suffix_app (suf x : string) :
  strip_suffix suf (x ++ suf) = Some x.
Proof.
  induction x as [| c r IH].
  - cbn [append]. destruct suf; cbn [strip_suffix]; now rewrite String.eqb_refl.
  - cbn [append strip_suffix].
    assert (Hne : String.eqb (String c (r ++ suf)) suf = false).
    { apply String.eqb_neq. intros Heq.
      apply (f_equal String.length) in Heq. simpl in Heq.
      rewrite string_length_app in Heq. lia. }
    rewrite Hne, IH. reflexivity.
Qed.

Lemma parse_header_line (h : string) :
  parse_header ("<b><info>" ++ h ++ "</info></b>") = Some h.
Proof.
  unfold parse_header. cbn [append strip_prefix Ascii.eqb Bool.eqb].
  apply strip_suffix_app.
Qed.

Lemma headers_of_app (t u : list event) :
  headers_of (t ++ u) = (headers_of t ++ headers_of u)%list.
Proof. apply flat_map_app. Qed.

Lemma headers_of_items (l : list string) :
  headers_of (List.map (fun item => Line ("<c1> - " ++ item ++ "</c1>")) l) = [].
Proof.
  induction l as [| item rest IH]; [reflexivity |].
  change (List.map (fun item => Line ("<c1> - " ++ item ++ "</c1>")) (item :: rest))
    with ([Line ("<c1> - " ++ item ++ "</c1>")]
          ++ List.map (fun item => Line ("<c1> - " ++ item ++ "</c1>")) rest)%list.
  rewrite headers_of_app, IH. reflexivity.
Qed.

Lemma headers_of_block (key : string) (value : Value) :
  headers_of (display_normal_block key value) = [prettify key].
Proof.
  unfold display_normal_block.
  change (Line ("<b><info>" ++ prettify key ++ "</info></b>") :: ?t)
    with ([Line ("<b><info>" ++ prettify key ++ "</info></b>")] ++ t)%list.
  rewrite !headers_of_app.
  assert (H1 : headers_of [Line ("<b><info>" ++ prettify key ++ "</info></b>")]
               = [prettify key]).
  { unfold headers_of. cbn [flat_map]. now rewrite parse_header_line. }
  rewrite H1.
  destruct value as [v | l].
  - reflexivity.
  - rewrite headers_of_items. reflexivity.
Qed.

(** With a non-empty filter the skip-list plays no part in
    [display_normal]: the blocks are those of the requested keys. *)
Lemma display_normal_filtered (data : dict) (props : list string) :
  props <> [] ->
  display_normal data props =
  flat_map (fun kv => display_normal_block (fst kv) (snd kv))
           (filter (fun kv => Str.mem (fst kv) props) data).
Proof.
  intros Hne. destruct props as [| p ps]; [congruence |].
  induction data as [| [k v] rest IH]; [reflexivity |].
  cbn [display_normal truthy negb filter fst].
  rewrite andb_false_r. cbn [andb].
  destruct (Str.mem k (p :: ps)); cbn [negb flat_map fst snd]; now rewrite IH.
Qed.

(** Without a filter the blocks are those of the keys off the skip-list. *)
Lemma display_normal_unfiltered (data : dict) :
  display_normal data [] =
  flat_map (fun kv => display_normal_block (fst kv) (snd kv))
           (filter (fun kv => negb (Str.mem (fst kv) SKIP_PROPERTIES)) data).
Proof.
  induction data as [| [k v] rest IH]; [reflexivity |].
  cbn [display_normal truthy negb filter fst andb].
  rewrite andb_true_r.
  destruct (Str.mem k SKIP_PROPERTIES); cbn [negb flat_map fst snd]; now rewrite IH.
Qed.

(** Normal mode honours the filter over the skip-list: every line of the
    block of a requested entry is printed, whatever its key. *)
Lemma display_normal_honors_filter
      (data : dict) (props : list string) (key : string) (value : Value) :
  In key props -> In (key, value) data ->
  incl (display_normal_block key value) (display_normal data props).
Proof.
  intros Hp Hd e He.
  rewrite display_normal_filtered by (intros ->; contradiction).
  apply in_flat_map. exists (key, value). split; [| exact He].
  apply filter_In. split; [exact Hd |]. now apply mem_true_iff.
Qed.

(** C1: the filter does not override the skip-list in compact mode.  With
    the metadata of the test suite and [--property summary], validation
    passes and the command exits 0, but [--compact] renders an empty
    table, while normal mode prints the Summary block. *)
Theorem compact_ignores_filter_on_skipped :
  let run compact :=
    handle Fixtures.canonicalize_name Fixtures.package_eq
           (Fixtures.mocked Fixtures.TEST_DATA []) Fixtures.poetry None
           {| opt_json := false; opt_compact := compact;
              opt_list_properties := false; opt_property := ["summary"] |} in
  run true = ([TableRender []], Ok 0)
  /\ run false = ([Line "<b><info>Summary</info></b>";
                   Line "<c2> this is a test package</c2>";
                   Line EmptyString], Ok 0).
Proof. split; reflexivity. Qed.

(** Compact mode drops every skip-list entry, whatever was requested: the
    rows are those of the record without its skip-list entries. *)
Lemma build_rows_skips (data : dict) :
  build_rows_from_metadata data =
  build_rows_from_metadata
    (filter (fun kv => negb (Str.mem (fst kv) SKIP_PROPERTIES)) data).
Proof.
  induction data as [| [prop items] rest IH]; [reflexivity |].
  cbn [build_rows_from_metadata filter fst].
  destruct (Str.mem prop SKIP_PROPERTIES) eqn:Hskip; cbn [negb].
  - exact IH.
  - cbn [build_rows_from_metadata]. rewrite Hskip, IH. reflexivity.
Qed.

Lemma plain_char_capitalized (c : ascii) :
  plain_char c = true ->
  let f := fun c => if Ascii.eqb c "_"%char then " "%char else c in
  let g := fun c => if Ascii.eqb c " "%char then "_"%char else c in
  g (Str.lower_char (Str.upper_char (f c))) = c
  /\ g (Str.lower_char (Str.lower_char (f c))) = c.
Proof.
  destruct c as [b0 b1 b2 b3 b4 b5 b6 b7].
  destruct b0, b1, b2, b3, b4, b5, b6, b7; intros H;
    try discriminate H; split; reflexivity.
Qed.

Lemma unprettify_prettify (k : string) :
  plain_key k = true -> unprettify (prettify k) = k.
Proof.
  unfold unprettify, prettify, Str.capitalize, Str.lower, Str.replace_char, plain_key.
  destruct k as [| c r]; [reflexivity |].
  cbn [Str.map Str.forallb]. intros H.
  apply andb_prop in H. destruct H as [Hc Hr].
  f_equal.
  - apply (plain_char_capitalized c Hc).
  - induction r as [| c' r' IH]; [reflexivity |].
    cbn [Str.map Str.forallb] in *.
    apply andb_prop in Hr. destruct Hr as [Hc' Hr'].
    f_equal; [apply (plain_char_capitalized c' Hc') | apply IH; exact Hr'].
Qed.

(** C8, as the claim states it, fails: a key with an uppercase letter is
    printed in Normal mode but the header reversal does not give it back. *)
Lemma headers_round_trip_uppercase_key :
  let data := [("name", VStr "demo"); ("version", VStr "1.0");
               ("package_description", VStr "A demo.");
               ("Home_Page", VStr "https://example.org")] in
  let recovered := List.map unprettify (headers_of (display_normal data [])) in
  In "Home_Page" (Dict.keys data)
  /\ Str.mem "Home_Page" SKIP_PROPERTIES = false
  /\ ~ In "Home_Page" recovered
  /\ recovered = ["name"; "version"; "package_description"; "home_page"].
Proof.
  repeat split.
  - simpl. tauto.
  - simpl. intros H. repeat destruct H as [H | H]; try discriminate H. exact H.
Qed.

(** C8 (amended): for every record whose keys are made of ASCII
    characters other than uppercase letters and spaces, rendered in Normal
    mode without a filter, the header reversal (lowercase, spaces to
    underscores) applied to the printed headers gives back the record's
    keys without those of the skip-list, in order. *)
Theorem headers_round_trip (data : dict) :
  (forall k, In k (Dict.keys data) -> plain_key k = true) ->
  List.map unprettify (headers_of (display_normal data [])) =
  filter (fun k => negb (Str.mem k SKIP_PROPERTIES)) (Dict.keys data).
Proof.
  intros Hplain. rewrite display_normal_unfiltered.
  induction data as [| [k v] rest IH]; [reflexivity |].
  cbn [filter Dict.keys List.map fst].
  assert (Hrest : forall k', In k' (Dict.keys rest) -> plain_key k' = true).
  { intros k' Hin. apply Hplain. now right. }
  specialize (IH Hrest).
  destruct (Str.mem k SKIP_PROPERTIES); cbn [negb]; [exact IH |].
  cbn [flat_map fst snd]. unfold headers_of in *.
  rewrite flat_map_app. fold (headers_of (display_normal_block k v)).
  rewrite headers_of_block. cbn [app List.map].
  rewrite unprettify_prettify by (apply Hplain; now left).
  f_equal. exact IH.
Qed.

Lemma headers_round_trip_witness :
  List.map unprettify
    (headers_of (display_normal
                   (snd (inspect_metadata (Fixtures.mocked Fixtures.TEST_DATA [])
                                          Fixtures.simple_project)) [])) =
  ["name"; "version"; "package_description"; "author_email"; "author"].
Proof.
  apply (headers_round_trip
           (snd (inspect_metadata (Fixtures.mocked Fixtures.TEST_DATA [])
                                  Fixtures.simple_project))).
  intros k Hin. simpl in Hin.
  repeat (destruct Hin as [<- | Hin]; [reflexivity |]). contradiction.
Defined.

(** ** Package resolution *)

Section Resolution.

Variable canonicalize_name : string -> string.
Variable package_eq : Package -> Package -> bool.

Lemma first_locked_found (canon : string) (pre post : list Package)
      (m root : Package) :
  (forall p, In p pre -> name p <> canon) ->
  name m = canon ->
  first_locked canon (pre ++ m :: post) root = m.
Proof.
  intros Hpre Hm. induction pre as [| p pre IH]; simpl.
  - subst canon. now rewrite String.eqb_refl.
  - assert (Hp : String.eqb (name p) canon = false).
    { apply String.eqb_neq. apply Hpre. now left. }
    rewrite Hp. apply IH. intros q Hq. apply Hpre. now right.
Qed.

Lemma first_locked_missing (canon : string) (locked : list Package)
      (root : Package) :
  (forall p, In p locked -> name p <> canon) ->
  first_locked canon locked root = root.
Proof.
  intros Hno. induction locked as [| p rest IH]; simpl; [reflexivity |].
  assert (Hp : String.eqb (name p) canon = false).
  { apply String.eqb_neq. apply Hno. now left. }
  rewrite Hp. apply IH. intros q Hq. apply Hno. now right.
Qed.

(** An empty or absent dependency name resolves to the root package. *)
Lemma resolve_root (poetry : Poetry) (dep : option string) :
  dep = None \/ dep = Some EmptyString ->
  _get_package_from_dependency canonicalize_name package_eq poetry dep =
  Ok (package poetry).
Proof. intros [-> | ->]; reflexivity. Qed.

(** A non-empty name resolves to its first match among the locked
    packages, when that package does not compare equal to the root. *)
Lemma resolve_found (poetry : Poetry) (d : string)
      (pre post : list Package) (m : Package) :
  d <> EmptyString ->
  locked_packages poetry = (pre ++ m :: post)%list ->
  (forall p, In p pre -> name p <> canonicalize_name d) ->
  name m = canonicalize_name d ->
  package_eq m (package poetry) = false ->
  _get_package_from_dependency canonicalize_name package_eq poetry (Some d) = Ok m.
Proof.
  intros Hd Hlocked Hpre Hm Hneq. unfold _get_package_from_dependency.
  destruct d as [| c r]; [congruence |].
  rewrite Hlocked, (first_locked_found _ _ _ _ _ Hpre Hm), Hneq. reflexivity.
Qed.

(** A non-empty name without a match raises the error that carries it. *)
Lemma resolve_missing (poetry : Poetry) (d : string) :
  d <> EmptyString ->
  (forall p, In p (locked_packages poetry) -> name p <> canonicalize_name d) ->
  package_eq (package poetry) (package poetry) = true ->
  _get_package_from_dependency canonicalize_name package_eq poetry (Some d) =
  Raise (ValueError ("Package '" ++ d ++ "' not found")).
Proof.
  intros Hd Hno Hrefl. unfold _get_package_from_dependency.
  destruct d as [| c r]; [congruence |].
  rewrite (first_locked_missing _ _ _ Hno), Hrefl. reflexivity.
Qed.

End Resolution.

(** C2: the "not found" test compares the loop's result with the root
    package by [==].  With poetry-core's equality (same name and version) a
    locked package equal to the root package is found by the loop and still
    reported as not found, where the claim has it returned. *)
Theorem resolve_locked_equal_to_root :
  let locked_root := Fixtures.get_package "simple-project" "1.2.3" "Locked copy." in
  let poetry := {| package := Fixtures.simple_project;
                   locked_packages := [Fixtures.cachy_010; locked_root] |} in
  first_locked (Fixtures.canonicalize_name "Simple_Project")
               (locked_packages poetry) (package poetry) = locked_root
  /\ name locked_root = Fixtures.canonicalize_name "Simple_Project"
  /\ _get_package_from_dependency Fixtures.canonicalize_name Fixtures.package_eq
                                  poetry (Some "Simple_Project") =
     Raise (ValueError "Package 'Simple_Project' not found").
Proof. repeat split. Qed.

(** ** The [--property] validation loop *)

Lemma select_all_present (props : list string) (metadata acc : dict) :
  (forall q, In q props -> Dict.contains q metadata = true) ->
  exists d, select_properties props metadata acc = inr d.
Proof.
  revert acc. induction props as [| p rest IH]; intros acc Hall; simpl.
  - now exists acc.
  - destruct (proj2 (get_some_iff p metadata) (Hall p (or_introl eq_refl)))
      as [v Hv].
    rewrite Hv. apply IH. intros q Hq. apply Hall. now right.
Qed.

Lemma select_first_missing (pre post : list string) (prop : string)
      (metadata acc : dict) :
  (forall q, In q pre -> Dict.contains q metadata = true) ->
  Dict.contains prop metadata = false ->
  select_properties (pre ++ prop :: post) metadata acc = inl prop.
Proof.
  intros Hpre Hprop. revert acc.
  induction pre as [| p rest IH]; intros acc; simpl.
  - apply get_none_iff in Hprop. now rewrite Hprop.
  - destruct (proj2 (get_some_iff p metadata) (Hpre p (or_introl eq_refl)))
      as [v Hv].
    rewrite Hv. apply IH. intros q Hq. apply Hpre. now right.
Qed.

(** A list with an absent name has a first absent name. *)
Lemma first_missing_exists (props : list string) (metadata : dict) :
  (exists q, In q props /\ Dict.contains q metadata = false) ->
  exists pre prop post,
    props = (pre ++ prop :: post)%list
    /\ (forall q, In q pre -> Dict.contains q metadata = true)
    /\ Dict.contains prop metadata = false.
Proof.
  induction props as [| p rest IH]; intros [q [Hin Hq]]; [contradiction |].
  destruct (Dict.contains p metadata) eqn:Hp.
  - destruct Hin as [-> | Hin]; [congruence |].
    destruct IH as [pre [prop [post [Heq [Hpre Hprop]]]]]; [now exists q |].
    exists (p :: pre), prop, post. subst rest. repeat split; [| exact Hprop].
    intros q' [<- | Hq']; [exact Hp | now apply Hpre].
  - exists [], p, rest. repeat split; [contradiction | exact Hp].
Qed.

(** After a loop that did not stop, [display_metadata] holds the requested
    entries, with the metadata's values, on top of what it held before. *)
Lemma select_get (props : list string) (metadata acc d : dict) (k : string) :
  select_properties props metadata acc = inr d ->
  Dict.get k d = if Str.mem k props then Dict.get k metadata else Dict.get k acc.
Proof.
  revert acc. induction props as [| p rest IH]; intros acc Hsel; simpl in Hsel.
  - now inversion Hsel.
  - destruct (Dict.get p metadata) as [v |] eqn:Hv; [| discriminate].
    rewrite (IH _ Hsel). unfold Str.mem. cbn [existsb].
    fold (Str.mem k rest).
    destruct (String.eqb k p) eqn:Hkp; cbn [orb].
    + apply String.eqb_eq in Hkp. subst p.
      destruct (Str.mem k rest); [reflexivity |].
      now rewrite get_set_same.
    + destruct (Str.mem k rest); [reflexivity |].
      apply get_set_other. now apply String.eqb_neq.
Qed.

Lemma select_nonempty (props : list string) (metadata acc d : dict) :
  props <> [] -> select_properties props metadata acc = inr d -> d <> [].
Proof.
  intros Hne Hsel Hd. subst d.
  destruct props as [| p rest]; [congruence |].
  pose proof (select_get _ _ _ _ p Hsel) as Hget.
  simpl in Hsel. destruct (Dict.get p metadata) as [v |] eqn:Hv; [| discriminate].
  unfold Str.mem in Hget. cbn [existsb] in Hget.
  rewrite String.eqb_refl in Hget. cbn [orb Dict.get] in Hget. congruence.
Qed.

(** ** The command *)

Section Handle.

Variable canonicalize_name : string -> string.
Variable package_eq : Package -> Package -> bool.
Variable from_name : string -> option Distribution.

Local Abbreviation resolve :=
  (_get_package_from_dependency canonicalize_name package_eq).
Local Abbreviation run := (handle canonicalize_name package_eq from_name).
Local Abbreviation gather := (inspect_metadata from_name).

(** [handle] once the package is resolved, branch by branch. *)
Lemma handle_resolved (poetry : Poetry) (dep : option string) (opts : Options)
      (pkg : Package) :
  resolve poetry dep = Ok pkg ->
  run poetry dep opts =
  let t := fst (gather pkg) in
  let metadata := snd (gather pkg) in
  if opt_list_properties opts then
    (List.app t
       [Line ("<b>Available properties for <info>" ++ name pkg
              ++ "</info> are:</b>");
        Line ("<info>"
              ++ Str.join Str.nl
                   (List.map (fun x => "- " ++ x) (Dict.keys metadata))
              ++ "</info>")],
     Ok 0)
  else
    match select_properties (opt_property opts) metadata [] with
    | inl prop =>
        (List.app t [LineError ("<error>Property '" ++ prop
                                ++ "' not available.</error>")],
         Ok 1)
    | inr d =>
        if opt_json opts then
          ((t ++ [JsonDump (dict_or d metadata)])%list, Ok 0)
        else if opt_compact opts then
          match build_rows_from_metadata (dict_or d metadata) with
          | Ok rows => ((t ++ [TableRender rows])%list, Ok 0)
          | Raise e => (t, Raise e)
          end
        else
          ((t ++ display_normal (dict_or d metadata) (opt_property opts))%list,
           Ok 0)
    end.
Proof.
  unfold handle. intros Hres. rewrite Hres.
  cbn [lift bind].
  destruct (inspect_metadata from_name pkg) as [t metadata].
  cbn [fst snd bind app].
  destruct (opt_list_properties opts).
  - reflexivity.
  - destruct (select_properties (opt_property opts) metadata []) as [prop | d].
    + reflexivity.
    + destruct (opt_json opts); [reflexivity |].
      destruct (opt_compact opts).
      * destruct (build_rows_from_metadata (dict_or d metadata)) as [rows | e];
          cbn [lift bind emit ret app];
          rewrite ?app_nil_r; reflexivity.
      * cbn [bind ret]. rewrite !app_nil_r. reflexivity.
Qed.

(** Metadata gathering prints on standard output only. *)
Lemma gather_stdout (pkg : Package) :
  stdout_of (fst (gather pkg)) = fst (gather pkg)
  /\ stderr_of (fst (gather pkg)) = [].
Proof.
  unfold inspect_metadata.
  destruct (from_name (name pkg)) as [d |]; [| split; reflexivity].
  destruct (metadata_json d); split; reflexivity.
Qed.

(** C4 (amended): once the package is resolved and unless
    [--list-properties] is given: if some requested [--property] name is
    absent from the gathered metadata, the command exits with code 1 and
    writes exactly one line on the error output, naming the first absent
    name in request order; if every requested name is present, it exits
    with code 0 in JSON and normal mode, and in compact mode whenever the
    table rows are built. *)
Theorem property_validation (poetry : Poetry) (dep : option string)
        (opts : Options) (pkg : Package) :
  resolve poetry dep = Ok pkg ->
  opt_list_properties opts = false ->
  let metadata := snd (gather pkg) in
  ((exists q, In q (opt_property opts) /\ Dict.contains q metadata = false) ->
   exists pre prop post,
     opt_property opts = (pre ++ prop :: post)%list
     /\ (forall q, In q pre -> Dict.contains q metadata = true)
     /\ Dict.contains prop metadata = false
     /\ run poetry dep opts =
        (List.app (fst (gather pkg))
           [LineError ("<error>Property '" ++ prop ++ "' not available.</error>")],
         Ok 1)
     /\ stderr_of (fst (run poetry dep opts)) =
        [LineError ("<error>Property '" ++ prop ++ "' not available.</error>")])
  /\ ((forall q, In q (opt_property opts) -> Dict.contains q metadata = true) ->
      (opt_json opts = true \/ opt_compact opts = false ->
       snd (run poetry dep opts) = Ok 0)
      /\ (forall rows,
             build_rows_from_metadata
               (display_metadata_of (opt_property opts) metadata) = Ok rows ->
             snd (run poetry dep opts) = Ok 0)).
Proof.
  intros Hres Hlist metadata.
  rewrite (handle_resolved _ _ _ _ Hres), Hlist. cbv zeta.
  fold metadata. split.
  - intros Hmissing.
    destruct (first_missing_exists _ _ Hmissing)
      as [pre [prop [post [Heq [Hpre Hprop]]]]].
    exists pre, prop, post. repeat split; try assumption.
    + rewrite Heq, (select_first_missing _ _ _ _ _ Hpre Hprop). reflexivity.
    + rewrite Heq, (select_first_missing _ _ _ _ _ Hpre Hprop).
      cbn [fst]. unfold stderr_of. rewrite filter_app.
      fold (stderr_of (fst (inspect_metadata from_name pkg))).
      rewrite (proj2 (gather_stdout pkg)). reflexivity.
  - intros Hall. unfold display_metadata_of.
    destruct (select_all_present _ _ [] Hall) as [d Hd]. rewrite Hd.
    split.
    + intros [Hjson | Hcompact].
      * now rewrite Hjson.
      * rewrite Hcompact. now destruct (opt_json opts).
    + intros rows Hrows. rewrite Hrows.
      destruct (opt_json opts); [reflexivity |].
      now destruct (opt_compact opts).
Qed.

(** C6 (amended): in JSON mode, once the package is resolved and the
    requested names are all present, the command exits 0 and its only
    output besides what metadata gathering printed is the JSON dump on the
    error stream of the record: the whole record, skip-list entries
    included, when no property was requested, and otherwise exactly the
    requested entries with the record's values.  The rendering writes
    nothing on standard output; standard output holds what gathering
    printed, which is nothing when the distribution is found with
    structured metadata. *)
Theorem json_mode (poetry : Poetry) (dep : option string)
        (opts : Options) (pkg : Package) :
  resolve poetry dep = Ok pkg ->
  opt_list_properties opts = false ->
  opt_json opts = true ->
  let metadata := snd (gather pkg) in
  let display := display_metadata_of (opt_property opts) metadata in
  (forall q, In q (opt_property opts) -> Dict.contains q metadata = true) ->
  run poetry dep opts = ((fst (gather pkg) ++ [JsonDump display])%list, Ok 0)
  /\ (opt_property opts = [] -> display = metadata)
  /\ (opt_property opts <> [] ->
      forall k, Dict.get k display =
                if Str.mem k (opt_property opts) then Dict.get k metadata
                else None)
  /\ stdout_of (fst (run poetry dep opts)) = fst (gather pkg)
  /\ (forall d json, from_name (name pkg) = Some d ->
                     metadata_json d = Some json ->
                     stdout_of (fst (run poetry dep opts)) = []).
Proof.
  intros Hres Hlist Hjson metadata display Hall.
  assert (Hrun : run poetry dep opts =
                 ((fst (gather pkg) ++ [JsonDump display])%list, Ok 0)).
  { rewrite (handle_resolved _ _ _ _ Hres), Hlist, Hjson. cbv zeta.
    subst display. unfold display_metadata_of. fold metadata.
    destruct (select_all_present _ _ [] Hall) as [d Hd]. now rewrite Hd. }
  assert (Hout : stdout_of (fst (run poetry dep opts)) = fst (gather pkg)).
  { rewrite Hrun. cbn [fst]. unfold stdout_of. rewrite filter_app.
    fold (stdout_of (fst (gather pkg))).
    rewrite (proj1 (gather_stdout pkg)). cbn [filter on_stdout].
    apply app_nil_r. }
  repeat split.
  - exact Hrun.
  - intros Hnil. subst display. unfold display_metadata_of. now rewrite Hnil.
  - intros Hne k. subst display. unfold display_metadata_of.
    destruct (select_all_present _ _ [] Hall) as [d Hd]. rewrite Hd.
    pose proof (select_nonempty _ _ _ _ Hne Hd) as Hd'.
    destruct d as [| kv d']; [congruence |]. cbn [dict_or].
    rewrite (select_get _ _ _ _ k Hd). reflexivity.
  - exact Hout.
  - intros d json Hd Hj. rewrite Hout. unfold inspect_metadata.
    now rewrite Hd, Hj.
Qed.

(** C10: once the package is resolved, with [--list-properties] the
    command prints the header and the list of all the record's keys and
    exits 0, whatever [--json], [--compact] and the [--property] names are
    (no name is validated, so an absent one changes nothing); and without
    [--list-properties], [--json] decides the outcome whatever [--compact]
    is, the rendering being the JSON dump when validation passes. *)
Theorem mode_precedence (poetry : Poetry) (dep : option string) (pkg : Package) :
  resolve poetry dep = Ok pkg ->
  let metadata := snd (gather pkg) in
  (forall json compact props,
      run poetry dep {| opt_json := json; opt_compact := compact;
                        opt_list_properties := true; opt_property := props |} =
      (List.app (fst (gather pkg))
         [Line ("<b>Available properties for <info>" ++ name pkg
                ++ "</info> are:</b>");
          Line ("<info>"
                ++ Str.join Str.nl
                     (List.map (fun x => "- " ++ x) (Dict.keys metadata))
                ++ "</info>")],
       Ok 0))
  /\ (forall compact props,
         run poetry dep {| opt_json := true; opt_compact := compact;
                           opt_list_properties := false; opt_property := props |} =
         run poetry dep {| opt_json := true; opt_compact := false;
                           opt_list_properties := false; opt_property := props |})
  /\ (forall compact props d,
         select_properties props metadata [] = inr d ->
         run poetry dep {| opt_json := true; opt_compact := compact;
                           opt_list_properties := false; opt_property := props |} =
         ((fst (gather pkg) ++ [JsonDump (dict_or d metadata)])%list, Ok 0)).
Proof.
  intros Hres metadata. split; [| split].
  - intros json compact props.
    rewrite (handle_resolved _ _ _ _ Hres). reflexivity.
  - intros compact props.
    rewrite !(handle_resolved _ _ _ _ Hres). reflexivity.
  - intros compact props d Hd.
    rewrite (handle_resolved _ _ _ _ Hres). cbn [opt_list_properties
      opt_property opt_json]. cbv zeta. fold metadata. now rewrite Hd.
Qed.

End Handle.

(** ** The command on the metadata of the test suite *)

(** C4, as the claim states it, fails: with [--list-properties] a
    requested name that is absent from the metadata is not validated; the
    command exits 0 and writes nothing on the error output. *)
Lemma list_properties_skips_validation :
  let opts := {| opt_json := false; opt_compact := false;
                 opt_list_properties := true;
                 opt_property := ["does-not-exist"] |} in
  let from_name := Fixtures.mocked Fixtures.TEST_DATA [] in
  let out := handle Fixtures.canonicalize_name Fixtures.package_eq from_name
                    Fixtures.poetry None opts in
  In "does-not-exist" (opt_property opts)
  /\ Dict.contains "does-not-exist"
       (snd (inspect_metadata from_name Fixtures.simple_project)) = false
  /\ snd out = Ok 0
  /\ stderr_of (fst out) = [].
Proof. repeat split. now left. Qed.

Lemma property_validation_witness :
  let run props :=
    handle Fixtures.canonicalize_name Fixtures.package_eq
           (Fixtures.mocked Fixtures.TEST_DATA []) Fixtures.poetry None
           {| opt_json := false; opt_compact := false;
              opt_list_properties := false; opt_property := props |} in
  (snd (run ["name"; "does-not-exist"; "nope"]) = Ok 1
   /\ stderr_of (fst (run ["name"; "does-not-exist"; "nope"])) =
      [LineError "<error>Property 'does-not-exist' not available.</error>"])
  /\ snd (run ["name"; "author"]) = Ok 0.
Proof.
  intros run. split.
  - destruct (proj1 (property_validation
                       Fixtures.canonicalize_name Fixtures.package_eq
                       (Fixtures.mocked Fixtures.TEST_DATA []) Fixtures.poetry None
                       {| opt_json := false; opt_compact := false;
                          opt_list_properties := false;
                          opt_property := ["name"; "does-not-exist"; "nope"] |}
                       Fixtures.simple_project eq_refl eq_refl)
                    (ex_intro _ "nope" (conj (or_intror (or_intror (or_introl eq_refl)))
                                             eq_refl)))
      as [pre [prop [post [Heq [Hpre [Hprop [Hcode Herr]]]]]]].
    split; [exact (f_equal snd Hcode) |].
    destruct pre as [| p0 [| p1 pre']].
    + injection Heq as <- _. discriminate Hprop.
    + injection Heq as _ <- _. exact Herr.
    + injection Heq as _ <- _.
      discriminate (Hpre "does-not-exist" (or_intror (or_introl eq_refl))).
  - apply (proj2 (property_validation
                    Fixtures.canonicalize_name Fixtures.package_eq
                    (Fixtures.mocked Fixtures.TEST_DATA []) Fixtures.poetry None
                    {| opt_json := false; opt_compact := false;
                       opt_list_properties := false;
                       opt_property := ["name"; "author"] |}
                    Fixtures.simple_project eq_refl eq_refl)).
    + intros q [<- | [<- | []]]; reflexivity.
    + now right.
Defined.

(** C6, as the claim states it, fails: in JSON mode, when the package's
    distribution is not found, the warning of metadata gathering is written
    on standard output before the record is dumped on the error stream. *)
Lemma json_mode_warning_on_stdout :
  let out := handle Fixtures.canonicalize_name Fixtures.package_eq
                    Fixtures.not_installed Fixtures.poetry None
                    {| opt_json := true; opt_compact := false;
                       opt_list_properties := false; opt_property := [] |} in
  stdout_of (fst out) =
  [Line "<warning>Could not find package metadata for name: simple-project: showing basic info</>"]
  /\ stderr_of (fst out) =
     [JsonDump [("name", VStr "simple-project"); ("version", VStr "1.2.3");
                ("package_description", VStr "Some description.")]]
  /\ snd out = Ok 0.
Proof. repeat split. Qed.

Lemma json_mode_witness :
  handle Fixtures.canonicalize_name Fixtures.package_eq
         (Fixtures.mocked Fixtures.TEST_DATA []) Fixtures.poetry (Some "Pendulum")
         {| opt_json := true; opt_compact := true;
            opt_list_properties := false; opt_property := ["summary"; "name"] |} =
  ([JsonDump [("summary", VStr "this is a test package");
              ("name", VStr "test-package-1")]], Ok 0).
Proof.
  assert (Hall : forall q, In q ["summary"; "name"] ->
                 Dict.contains q
                   (snd (inspect_metadata (Fixtures.mocked Fixtures.TEST_DATA [])
                                          Fixtures.pendulum_200)) = true).
  { intros q [<- | [<- | []]]; reflexivity. }
  exact (proj1 (json_mode
                  Fixtures.canonicalize_name Fixtures.package_eq
                  (Fixtures.mocked Fixtures.TEST_DATA []) Fixtures.poetry
                  (Some "Pendulum")
                  {| opt_json := true; opt_compact := true;
                     opt_list_properties := false;
                     opt_property := ["summary"; "name"] |}
                  Fixtures.pendulum_200 eq_refl eq_refl eq_refl Hall)).
Defined.

Lemma mode_precedence_witness :
  handle Fixtures.canonicalize_name Fixtures.package_eq
         (Fixtures.mocked Fixtures.TEST_DATA []) Fixtures.poetry None
         {| opt_json := true; opt_compact := true;
            opt_list_properties := true; opt_property := ["does-not-exist"] |} =
  ([Line "<b>Available properties for <info>simple-project</info> are:</b>";
    Line ("<info>- name" ++ Str.nl ++ "- version" ++ Str.nl
          ++ "- package_description" ++ Str.nl ++ "- metadata_version" ++ Str.nl
          ++ "- summary" ++ Str.nl ++ "- author_email" ++ Str.nl
          ++ "- author</info>")],
   Ok 0).
Proof.
  apply (proj1 (mode_precedence
                  Fixtures.canonicalize_name Fixtures.package_eq
                  (Fixtures.mocked Fixtures.TEST_DATA []) Fixtures.poetry None
                  Fixtures.simple_project eq_refl)).
Defined.

(** * Further properties of the code *)

(** ** Package resolution *)

Section ResolutionMore.

Variable canonicalize_name : string -> string.
Variable package_eq : Package -> Package -> bool.

Local Abbreviation resolve :=
  (_get_package_from_dependency canonicalize_name package_eq).

(** The loop either breaks at the first package with the canonical name
    or leaves [pkg] as it was. *)
Lemma first_locked_cases (canon : string) (locked : list Package) (root : Package) :
  (first_locked canon locked root = root
   /\ forall p, In p locked -> name p <> canon)
  \/ (exists pre post,
         locked = (pre ++ first_locked canon locked root :: post)%list
         /\ (forall p, In p pre -> name p <> canon)
         /\ name (first_locked canon locked root) = canon).
Proof.
  induction locked as [| l rest IH]; simpl.
  - left. split; [reflexivity | contradiction].
  - destruct (String.eqb (name l) canon) eqn:E.
    + right. exists [], rest. repeat split; [contradiction |].
      now apply String.eqb_eq.
    + apply String.eqb_neq in E. destruct IH as [[Hroot Hno] | [pre [post [Heq [Hpre Hm]]]]].
      * left. split; [exact Hroot |]. intros p [<- | Hp]; [exact E | now apply Hno].
      * right. exists (l :: pre), post. repeat split; [| | exact Hm].
        -- simpl. now rewrite <- Heq.
        -- intros p [<- | Hp]; [exact E | now apply Hpre].
Qed.

(** X1: when a non-empty dependency name resolves, the package returned is
    a locked package whose name is the canonical form of the requested
    name, it is the first such package in the locked list, and it does not
    compare equal to the root package (the equality being reflexive on the
    root): the root package is never returned for a named dependency. *)
Theorem resolve_named_sound (poetry : Poetry) (d : string) (pkg : Package) :
  d <> EmptyString ->
  package_eq (package poetry) (package poetry) = true ->
  resolve poetry (Some d) = Ok pkg ->
  (exists pre post,
      locked_packages poetry = (pre ++ pkg :: post)%list
      /\ forall p, In p pre -> name p <> canonicalize_name d)
  /\ name pkg = canonicalize_name d
  /\ package_eq pkg (package poetry) = false.
Proof.
  intros Hd Hrefl. unfold _get_package_from_dependency.
  destruct d as [| c r]; [congruence |].
  set (canon := canonicalize_name (String c r)).
  destruct (first_locked_cases canon (locked_packages poetry) (package poetry))
    as [[Hroot _] | [pre [post [Heq [Hpre Hm]]]]].
  - rewrite Hroot, Hrefl. discriminate.
  - destruct (package_eq (first_locked canon (locked_packages poetry) (package poetry))
                         (package poetry)) eqn:E; [discriminate |].
    intros Hok. injection Hok as <-.
    split; [| split; [exact Hm | exact E]].
    exists pre, post. split; [exact Heq | exact Hpre].
Qed.

(** X2: for a non-empty dependency name (equality being reflexive on the
    root package), the resolution raises exactly when no locked package has
    the canonical form of the name, or when the first locked package that
    has it compares equal to the root package; the exception is then the
    [ValueError] that carries the name as it was given, not its canonical
    form. *)
Theorem resolve_named_raises_iff (poetry : Poetry) (d : string) (e : exn) :
  d <> EmptyString ->
  package_eq (package poetry) (package poetry) = true ->
  (resolve poetry (Some d) = Raise e <->
   e = ValueError ("Package '" ++ d ++ "' not found")
   /\ ((forall p, In p (locked_packages poetry) -> name p <> canonicalize_name d)
       \/ exists pre m post,
            locked_packages poetry = (pre ++ m :: post)%list
            /\ (forall p, In p pre -> name p <> canonicalize_name d)
            /\ name m = canonicalize_name d
            /\ package_eq m (package poetry) = true)).
Proof.
  intros Hd Hrefl. unfold _get_package_from_dependency.
  destruct d as [| c r]; [congruence |].
  set (canon := canonicalize_name (String c r)). split.
  - destruct (package_eq (first_locked canon (locked_packages poetry) (package poetry))
                         (package poetry)) eqn:E; [| discriminate].
    intros H. injection H as <-. split; [reflexivity |].
    destruct (first_locked_cases canon (locked_packages poetry) (package poetry))
      as [[_ Hno] | [pre [post [Heq [Hpre Hm]]]]].
    + now left.
    + right. exists pre, (first_locked canon (locked_packages poetry) (package poetry)), post.
      repeat split; assumption.
  - intros [-> [Hno | [pre [m [post [Heq [Hpre [Hm Heqb]]]]]]]].
    + now rewrite (first_locked_missing _ _ _ Hno), Hrefl.
    + now rewrite Heq, (first_locked_found _ _ _ _ _ Hpre Hm), Heqb.
Qed.

End ResolutionMore.

Lemma resolve_named_sound_witness :
  name Fixtures.pendulum_200 = Fixtures.canonicalize_name "Pendulum"
  /\ Fixtures.package_eq Fixtures.pendulum_200 (package Fixtures.poetry) = false.
Proof.
  apply (resolve_named_sound Fixtures.canonicalize_name Fixtures.package_eq
                             Fixtures.poetry "Pendulum" Fixtures.pendulum_200).
  - discriminate.
  - reflexivity.
  - reflexivity.
Defined.

Lemma resolve_named_raises_iff_witness :
  _get_package_from_dependency Fixtures.canonicalize_name Fixtures.package_eq
                               Fixtures.poetry (Some "No.Such_Package") =
  Raise (ValueError "Package 'No.Such_Package' not found").
Proof.
  apply (proj2 (resolve_named_raises_iff
                  Fixtures.canonicalize_name Fixtures.package_eq
                  Fixtures.poetry "No.Such_Package"
                  (ValueError "Package 'No.Such_Package' not found")
                  ltac:(discriminate) eq_refl)).
  split; [reflexivity |]. left.
  intros p [<- | [<- | [<- | []]]]; discriminate.
Defined.

(** ** Metadata gathering *)

Lemma keys_set (k : string) (v : Value) (d : dict) :
  Dict.keys (Dict.set k v d) =
  if Dict.contains k d then Dict.keys d else (Dict.keys d ++ [k])%list.
Proof.
  unfold Dict.contains, Dict.keys, Str.mem.
  induction d as [| [k' v'] rest IH]; [reflexivity |].
  cbn [Dict.set List.map existsb fst].
  destruct (String.eqb k k'); cbn [orb List.map fst]; [reflexivity |].
  rewrite IH. now destruct (existsb (String.eqb k) (List.map fst rest)).
Qed.

Lemma contains_true_iff (k : string) (d : dict) :
  Dict.contains k d = true <-> In k (Dict.keys d).
Proof. apply mem_true_iff. Qed.

Lemma set_nodup (k : string) (v : Value) (d : dict) :
  NoDup (Dict.keys d) -> NoDup (Dict.keys (Dict.set k v d)).
Proof.
  intros Hnd. rewrite keys_set.
  destruct (Dict.contains k d) eqn:E; [exact Hnd |].
  apply NoDup_app; [exact Hnd | repeat constructor; intros [] | ].
  intros x Hx [<- | []].
  apply contains_true_iff in Hx. congruence.
Qed.

Lemma update_nodup (other d : dict) :
  NoDup (Dict.keys d) -> NoDup (Dict.keys (Dict.update d other)).
Proof.
  unfold Dict.update. revert d.
  induction other as [| [k v] rest IH]; intros d Hnd; cbn [fold_left fst snd].
  - exact Hnd.
  - apply IH. now apply set_nodup.
Qed.

Lemma update_keys_prefix (other d : dict) :
  exists rest, Dict.keys (Dict.update d other) = (Dict.keys d ++ rest)%list.
Proof.
  unfold Dict.update. revert d.
  induction other as [| [k v] rest IH]; intros d; cbn [fold_left fst snd].
  - exists []. now rewrite app_nil_r.
  - destruct (IH (Dict.set k v d)) as [tl Htl].
    rewrite Htl, keys_set.
    destruct (Dict.contains k d).
    + now exists tl.
    + exists (k :: tl). now rewrite <- app_assoc.
Qed.

(** On a dict with unique keys, [update] gives every key its value in
    [other] and keeps the other entries. *)
Lemma get_update (k : string) (other d : dict) :
  NoDup (Dict.keys other) ->
  Dict.get k (Dict.update d other) =
  match Dict.get k other with
  | Some v => Some v
  | None => Dict.get k d
  end.
Proof.
  unfold Dict.update. revert d.
  induction other as [| [k' v'] rest IH]; intros d Hnd; [reflexivity |].
  cbn [fold_left fst snd Dict.get]. inversion Hnd as [| x l Hnotin Hnd' Heq]; subst.
  rewrite (IH _ Hnd').
  destruct (String.eqb k k') eqn:E.
  - apply String.eqb_eq in E. subst k'.
    assert (Hnone : Dict.get k rest = None).
    { apply get_none_iff. apply mem_false_iff. exact Hnotin. }
    rewrite Hnone. apply get_set_same.
  - destruct (Dict.get k rest); [reflexivity |].
    apply get_set_other. now apply String.eqb_neq.
Qed.

Lemma inspect_metadata_not_found_record
      (from_name : string -> option Distribution) (p : Package) :
  from_name (name p) = None -> snd (inspect_metadata from_name p) = seeded p.
Proof. intros H. unfold inspect_metadata. now rewrite H. Qed.

Lemma seeded_nodup (p : Package) : NoDup (Dict.keys (seeded p)).
Proof.
  repeat constructor; simpl; intros H;
    repeat (destruct H as [H | H]; [discriminate H |]); exact H.
Qed.

Lemma merged_keys_prefix (p : Package) (d : Distribution) :
  exists rest,
    Dict.keys (merged_metadata p d) = (Dict.keys (seeded p) ++ rest)%list.
Proof.
  unfold merged_metadata. destruct (metadata_json d) as [json |].
  - apply update_keys_prefix.
  - exists []. now rewrite app_nil_r.
Qed.

Lemma inspect_metadata_keys_prefix
      (from_name : string -> option Distribution) (p : Package) :
  exists rest,
    Dict.keys (snd (inspect_metadata from_name p)) =
    "name" :: "version" :: "package_description" :: rest.
Proof.
  destruct (from_name (name p)) as [d |] eqn:Hd.
  - rewrite (inspect_metadata_found _ _ _ Hd).
    destruct (merged_keys_prefix p d) as [rest Hrest].
    destruct (truthy (get_entry_points d)); [| now exists rest].
    rewrite keys_set, Hrest.
    destruct (Dict.contains "entry_points" (merged_metadata p d)).
    + now exists rest.
    + exists (rest ++ ["entry_points"])%list. now rewrite <- app_assoc.
  - rewrite (inspect_metadata_not_found_record _ _ Hd). now exists [].
Qed.

(** X3: whatever the metadata provider answers, the gathered record has
    no key twice and its first three keys are [name], [version] and
    [package_description], in this order: structured metadata and entry
    points overwrite these in place or come after them. *)
Theorem inspect_metadata_keys
        (from_name : string -> option Distribution) (p : Package) :
  NoDup (Dict.keys (snd (inspect_metadata from_name p)))
  /\ exists rest,
      Dict.keys (snd (inspect_metadata from_name p)) =
      "name" :: "version" :: "package_description" :: rest.
Proof.
  split; [| apply inspect_metadata_keys_prefix].
  destruct (from_name (name p)) as [d |] eqn:Hd.
  - rewrite (inspect_metadata_found _ _ _ Hd).
    assert (Hm : NoDup (Dict.keys (merged_metadata p d))).
    { unfold merged_metadata. destruct (metadata_json d) as [json |].
      - apply update_nodup, seeded_nodup.
      - apply seeded_nodup. }
    destruct (truthy (get_entry_points d)); [now apply set_nodup | exact Hm].
  - rewrite (inspect_metadata_not_found_record _ _ Hd). apply seeded_nodup.
Qed.

(** X4: when the distribution is found with structured metadata (a dict,
    so without repeated keys), every key of the structured metadata is in
    the record with the distribution's value, which replaces a seeded value
    of the same key, and every other key keeps its seeded value; only the
    [entry_points] key of a distribution that has entry points is excepted. *)
Theorem inspect_metadata_merge
        (from_name : string -> option Distribution) (p : Package)
        (d : Distribution) (json : dict) (k : string) :
  from_name (name p) = Some d ->
  metadata_json d = Some json ->
  NoDup (Dict.keys json) ->
  k <> "entry_points" \/ entry_points d = [] ->
  Dict.get k (snd (inspect_metadata from_name p)) =
  match Dict.get k json with
  | Some v => Some v
  | None => Dict.get k (seeded p)
  end.
Proof.
  intros Hd Hjson Hnd Hk.
  rewrite (inspect_metadata_found _ _ _ Hd).
  unfold merged_metadata. rewrite Hjson.
  rewrite <- (get_update k json (seeded p) Hnd).
  destruct (truthy (get_entry_points d)) eqn:Hep; [| reflexivity].
  destruct Hk as [Hne | Hnil].
  - now apply get_set_other.
  - unfold get_entry_points in Hep. rewrite Hnil in Hep. discriminate.
Qed.

Lemma inspect_metadata_merge_witness :
  Dict.get "name"
    (snd (inspect_metadata (Fixtures.mocked Fixtures.TEST_DATA [])
                           Fixtures.simple_project))
  = Some (VStr "test-package-1")
  /\ Dict.get "package_description"
       (snd (inspect_metadata (Fixtures.mocked Fixtures.TEST_DATA [])
                              Fixtures.simple_project))
     = Some (VStr "Some description.").
Proof.
  assert (Hnd : NoDup (Dict.keys Fixtures.TEST_DATA)).
  { repeat constructor; simpl; intros H;
      repeat (destruct H as [H | H]; [discriminate H |]); exact H. }
  split.
  - apply (inspect_metadata_merge (Fixtures.mocked Fixtures.TEST_DATA [])
             Fixtures.simple_project _ Fixtures.TEST_DATA "name"
             eq_refl eq_refl Hnd).
    left. discriminate.
  - apply (inspect_metadata_merge (Fixtures.mocked Fixtures.TEST_DATA [])
             Fixtures.simple_project _ Fixtures.TEST_DATA "package_description"
             eq_refl eq_refl Hnd).
    left. discriminate.
Defined.

(** X5: when the distribution is found but its metadata has no structured
    view, one error notice naming the package is printed, the three seeded
    entries are kept, and the entry points, when there are any, are added
    as the last entry. *)
Theorem inspect_metadata_no_structured
        (from_name : string -> option Distribution) (p : Package) (d : Distribution) :
  from_name (name p) = Some d ->
  metadata_json d = None ->
  inspect_metadata from_name p =
  ([Line ("<error>Could not find distribution metadata: " ++ name p ++ "</>")],
   match entry_points d with
   | [] => seeded p
   | _ :: _ =>
       List.app (seeded p)
         [("entry_points",
           VList (List.map (fun ep => ep_name ep ++ " source: " ++ ep_value ep)
                           (entry_points d)))]
   end).
Proof.
  intros Hd Hjson. unfold inspect_metadata, get_entry_points.
  rewrite Hd, Hjson. now destruct (entry_points d).
Qed.

Lemma inspect_metadata_no_structured_witness :
  inspect_metadata
    (fun _ => Some {| metadata_json := None;
                      entry_points := [{| ep_name := "poetry";
                                          ep_value := "poetry.console:main" |}] |})
    Fixtures.simple_project =
  ([Line "<error>Could not find distribution metadata: simple-project</>"],
   [("name", VStr "simple-project"); ("version", VStr "1.2.3");
    ("package_description", VStr "Some description.");
    ("entry_points", VList ["poetry source: poetry.console:main"])]).
Proof.
  apply (inspect_metadata_no_structured
           _ Fixtures.simple_project
           {| metadata_json := None;
              entry_points := [{| ep_name := "poetry";
                                  ep_value := "poetry.console:main" |}] |});
    reflexivity.
Defined.

(** ** Compact mode *)

Lemma unpack2_split (u : string) :
  unpack2 (Str.split ","%char u) =
  match count_char ","%char u with
  | 0 => Raise (ValueError "not enough values to unpack (expected 2, got 1)")
  | 1 => match Str.split ","%char u with
         | [a; b] => Ok (a, b)
         | _ => Raise (ValueError "too many values to unpack (expected 2)")
         end
  | _ => Raise (ValueError "too many values to unpack (expected 2)")
  end.
Proof.
  pose proof (split_length ","%char u) as Hlen.
  destruct (Str.split ","%char u) as [| a [| b [| c rest]]];
    simpl in Hlen; try discriminate; injection Hlen as <-; reflexivity.
Qed.

Lemma unpack2_one_comma (u : string) :
  count_char ","%char u = 1 ->
  exists a b, unpack2 (Str.split ","%char u) = Ok (a, b).
Proof.
  intros H1. pose proof (split_length ","%char u) as Hlen. rewrite H1 in Hlen.
  destruct (Str.split ","%char u) as [| a [| b [| c rest]]];
    simpl in Hlen; try discriminate. now exists a, b.
Qed.

Lemma display_pretty_urls_res_ok_iff (urls : list string) :
  (exists res, display_pretty_urls_res urls = Ok res)
  <-> Forall (fun u => count_char ","%char u = 1) urls.
Proof.
  induction urls as [| u rest IH]; cbn [display_pretty_urls_res].
  - split; [constructor | now exists []].
  - split.
    + intros [res Hres]. rewrite unpack2_split in Hres.
      destruct (count_char ","%char u) as [| [| n]] eqn:Hc; try discriminate.
      constructor; [exact Hc |]. apply IH.
      destruct (Str.split ","%char u) as [| a [| b [| c l]]]; try discriminate.
      destruct (display_pretty_urls_res rest) as [r |]; [now exists r | discriminate].
    + intros Hall. inversion Hall as [| x l Hu Hrest]; subst.
      destruct (unpack2_one_comma u Hu) as [a [b Hab]]. rewrite Hab.
      destruct (proj2 IH Hrest) as [r Hr]. rewrite Hr. eauto.
Qed.

(** X6: the URL rendering returns a text exactly when every item has
    exactly one comma; an item without a comma or with two or more makes it
    raise. *)
Theorem display_pretty_urls_ok_iff (urls : list string) :
  (exists text, display_pretty_urls urls = Ok text)
  <-> Forall (fun u => count_char ","%char u = 1) urls.
Proof.
  rewrite <- display_pretty_urls_res_ok_iff. unfold display_pretty_urls.
  destruct (display_pretty_urls_res urls) as [res | e]; split; intros [x Hx];
    try discriminate; eauto.
Qed.

(** X7: the exception of the URL rendering is decided by the first item
    that does not have exactly one comma: "not enough values to unpack" when
    it has none, "too many values to unpack" when it has two or more; the
    items after it are not looked at. *)
Theorem display_pretty_urls_first_bad (pre post : list string) (u : string) :
  Forall (fun x => count_char ","%char x = 1) pre ->
  count_char ","%char u <> 1 ->
  display_pretty_urls (pre ++ u :: post) =
  Raise (ValueError
           (if (count_char ","%char u =? 0)%nat
            then "not enough values to unpack (expected 2, got 1)"
            else "too many values to unpack (expected 2)")).
Proof.
  intros Hpre Hu. unfold display_pretty_urls.
  assert (Hres : display_pretty_urls_res (pre ++ u :: post) =
                 Raise (ValueError
                          (if (count_char ","%char u =? 0)%nat
                           then "not enough values to unpack (expected 2, got 1)"
                           else "too many values to unpack (expected 2)"))).
  { induction Hpre as [| x l Hx Hl IH]; cbn [app display_pretty_urls_res].
    - rewrite unpack2_split.
      destruct (count_char ","%char u) as [| [| n]]; [reflexivity | congruence | reflexivity].
    - destruct (unpack2_one_comma x Hx) as [a [b Hab]]. rewrite Hab, IH. reflexivity. }
  now rewrite Hres.
Qed.

Lemma display_pretty_urls_first_bad_witness :
  display_pretty_urls ["Homepage, https://example.org";
                       "https://example.org/no-label";
                       "Docs, https://example.org/a,b"] =
  Raise (ValueError "not enough values to unpack (expected 2, got 1)").
Proof.
  apply (display_pretty_urls_first_bad
           ["Homepage, https://example.org"]
           ["Docs, https://example.org/a,b"]
           "https://example.org/no-label").
  - repeat constructor.
  - discriminate.
Defined.

Lemma url_property_iff (prop : string) :
  Str.mem prop URL_PROPERTIES = true <-> prop = "project_url".
Proof.
  rewrite mem_true_iff. simpl. split; [intros [H | []]; now symmetry | now left].
Qed.

Lemma render_items_ok_iff (prop : string) (items : Value) :
  (exists text, render_items prop items = Ok text)
  <-> (prop = "project_url" ->
       forall l, items = VList l -> Forall (fun u => count_char ","%char u = 1) l).
Proof.
  unfold render_items.
  destruct (Str.mem prop URL_PROPERTIES) eqn:Hurl.
  - apply url_property_iff in Hurl. destruct items as [s | l].
    + split; [intros _ _ l Hl; discriminate Hl |].
      intros _. destruct (Str.mem prop LONG_PROPERTIES && _); eauto.
    + unfold display_pretty_urls. split.
      * intros [text Htext] _ l' Hl'. injection Hl' as <-.
        apply display_pretty_urls_res_ok_iff.
        destruct (display_pretty_urls_res l) as [r |]; [now exists r | discriminate].
      * intros H.
        destruct (proj2 (display_pretty_urls_res_ok_iff l) (H Hurl l eq_refl))
          as [r Hr].
        rewrite Hr.
        destruct (Str.mem prop LONG_PROPERTIES && _); eauto.
  - assert (Hne : prop <> "project_url").
    { intros ->. discriminate Hurl. }
    split; [intros _ H; contradiction |].
    intros _. destruct items as [s | l];
      destruct (Str.mem prop LONG_PROPERTIES && _); eauto.
Qed.

(** X8: building the rows of the compact table succeeds exactly when every
    list held by a [project_url] entry of the record has items with exactly
    one comma each; no other entry, whatever its key and value, can make it
    raise. *)
Theorem build_rows_ok_iff (data : dict) :
  (exists rows, build_rows_from_metadata data = Ok rows)
  <-> (forall l, In ("project_url", VList l) data ->
                 Forall (fun u => count_char ","%char u = 1) l).
Proof.
  induction data as [| [prop items] rest IH]; cbn [build_rows_from_metadata].
  - split; [intros _ l [] | now exists []].
  - destruct (Str.mem prop SKIP_PROPERTIES) eqn:Hskip.
    + rewrite IH. split.
      * intros H l [Heq | Hin]; [| now apply H].
        injection Heq as -> _. discriminate Hskip.
      * intros H l Hin. apply H. now right.
    + split.
      * intros [rows Hrows] l [Heq | Hin].
        -- injection Heq as -> ->.
           apply (proj1 (render_items_ok_iff "project_url" (VList l))); try reflexivity.
           destruct (render_items "project_url" (VList l)) as [t |];
             [now exists t | discriminate].
        -- apply (proj1 IH); [| exact Hin].
           destruct (render_items prop items); [| discriminate].
           destruct (build_rows_from_metadata rest) as [r |];
             [now exists r | discriminate].
      * intros H.
        destruct (proj2 (render_items_ok_iff prop items)) as [t Ht].
        { intros -> l ->. apply H. now left. }
        destruct (proj2 IH) as [r Hr].
        { intros l Hin. apply H. now right. }
        rewrite Ht, Hr. eauto.
Qed.

Lemma build_rows_first_cells (data : dict) (rows : Rows) :
  build_rows_from_metadata data = Ok rows ->
  List.map first_cell rows =
  List.map (fun k => "<info>" ++ prettify k ++ "</>")
           (filter (fun k => negb (Str.mem k SKIP_PROPERTIES)) (Dict.keys data)).
Proof.
  revert rows. induction data as [| [prop items] rest IH]; intros rows;
    cbn [build_rows_from_metadata Dict.keys List.map filter fst].
  - intros H. now injection H as <-.
  - destruct (Str.mem prop SKIP_PROPERTIES); cbn [negb]; [apply IH |].
    destruct (render_items prop items) as [t |]; [| discriminate].
    destruct (build_rows_from_metadata rest) as [r |]; [| discriminate].
    intros H. injection H as <-. cbn [List.map first_cell hd].
    f_equal. now apply IH.
Qed.

Lemma headers_of_display_normal (data : dict) :
  headers_of (display_normal data []) =
  List.map prettify
           (filter (fun k => negb (Str.mem k SKIP_PROPERTIES)) (Dict.keys data)).
Proof.
  rewrite display_normal_unfiltered.
  induction data as [| [k v] rest IH]; [reflexivity |].
  cbn [filter Dict.keys List.map fst].
  destruct (Str.mem k SKIP_PROPERTIES); cbn [negb]; [exact IH |].
  cbn [flat_map fst snd List.map].
  rewrite headers_of_app, headers_of_block, IH. reflexivity.
Qed.

(** X9: when the rows of the compact table are built, there is one row for
    every entry of the record whose key is off the skip-list, in record
    order; every row has two cells, the first being the prettified key
    between its style tags. *)
Theorem build_rows_shape (data : dict) (rows : Rows) :
  build_rows_from_metadata data = Ok rows ->
  List.length rows =
  List.length (filter (fun k => negb (Str.mem k SKIP_PROPERTIES)) (Dict.keys data))
  /\ Forall (fun r => List.length r = 2) rows
  /\ List.map first_cell rows =
     List.map (fun k => "<info>" ++ prettify k ++ "</>")
              (filter (fun k => negb (Str.mem k SKIP_PROPERTIES)) (Dict.keys data)).
Proof.
  intros Hrows. pose proof (build_rows_first_cells _ _ Hrows) as Hcells.
  split; [| split; [| exact Hcells]].
  - apply (f_equal (@List.length string)) in Hcells.
    now rewrite !length_map in Hcells.
  - clear Hcells. revert rows Hrows.
    induction data as [| [prop items] rest IH]; intros rows;
      cbn [build_rows_from_metadata].
    + intros H. injection H as <-. constructor.
    + destruct (Str.mem prop SKIP_PROPERTIES); [apply IH |].
      destruct (render_items prop items) as [t |]; [| discriminate].
      destruct (build_rows_from_metadata rest) as [r |]; [| discriminate].
      intros H. injection H as <-. constructor; [reflexivity | now apply IH].
Qed.

Lemma build_rows_shape_witness :
  let rows := [["<info>Name</>"; " : <b>test-package-1</>"];
               ["<info>Version</>"; " : <b>1.2.3</>"];
               ["<info>Author email</>"; " : <b>testauthor@email.com</>"];
               ["<info>Author</>"; " : <b>testauthor</>"]] in
  List.length rows = 4
  /\ Forall (fun r => List.length r = 2) rows
  /\ List.map first_cell rows =
     ["<info>Name</>"; "<info>Version</>"; "<info>Author email</>";
      "<info>Author</>"].
Proof.
  intros rows. apply (build_rows_shape Fixtures.TEST_DATA rows). reflexivity.
Defined.

(** X10: without a property filter, compact mode and normal mode show the
    same properties in the same order: the first cells of the compact rows
    are the headers that normal mode prints, between the compact style
    tags. *)
Theorem compact_normal_same_headers (data : dict) (rows : Rows) :
  build_rows_from_metadata data = Ok rows ->
  List.map first_cell rows =
  List.map (fun h => "<info>" ++ h ++ "</>") (headers_of (display_normal data [])).
Proof.
  intros Hrows. rewrite (build_rows_first_cells _ _ Hrows).
  rewrite headers_of_display_normal, map_map. reflexivity.
Qed.

Lemma compact_normal_same_headers_witness :
  List.map first_cell
    [["<info>Name</>"; " : <b>test-package-1</>"];
     ["<info>Version</>"; " : <b>1.2.3</>"];
     ["<info>Author email</>"; " : <b>testauthor@email.com</>"];
     ["<info>Author</>"; " : <b>testauthor</>"]] =
  List.map (fun h => "<info>" ++ h ++ "</>")
           (headers_of (display_normal Fixtures.TEST_DATA [])).
Proof.
  apply (compact_normal_same_headers Fixtures.TEST_DATA). reflexivity.
Defined.

(** X11: the cell text of a [license] entry is never longer than 151
    characters (79 of the value and the 72 of the hint), whether the value
    is a text or a list, the list being joined before it is measured; and
    rendering a [license] entry never raises. *)
Theorem license_cell_bound (items : Value) :
  exists text,
    render_items "license" items = Ok text
    /\ String.length text <= 151
    /\ (forall l, items = VList l ->
                  String.length (display_pretty_list l) <= 79 ->
                  text = display_pretty_list l).
Proof.
  assert (Hgen : forall s,
             exists text,
               (if (79 <? String.length s)%nat
                then Ok (Str.slice_to 79 s
                         ++ "... <comment>(use <info>-p license</info> to see full license)</comment>")
                else Ok s) = Ok text
               /\ String.length text <= 151
               /\ (String.length s <= 79 -> text = s)).
  { intros s. destruct (79 <? String.length s)%nat eqn:E.
    - apply Nat.ltb_lt in E. eexists. split; [reflexivity |]. split.
      + rewrite string_length_app, slice_to_length by lia. simpl. lia.
      + lia.
    - apply Nat.ltb_ge in E. exists s. repeat split. lia. }
  destruct items as [s | l].
  - destruct (Hgen s) as [text [H1 [H2 _]]]. exists text.
    split; [exact H1 | split; [exact H2 | discriminate]].
  - destruct (Hgen (display_pretty_list l)) as [text [H1 [H2 H3]]]. exists text.
    split; [exact H1 | split; [exact H2 |]].
    intros l' Hl'. injection Hl' as <-. exact H3.
Qed.

(** ** The property filter *)

Lemma mem_app_one (y p : string) (ks : list string) :
  Str.mem y (ks ++ [p]) = Str.mem y ks || String.eqb y p.
Proof.
  unfold Str.mem. rewrite existsb_app. cbn [existsb]. now rewrite orb_false_r.
Qed.

Lemma filter_not_in_snoc (ks l : list string) (p : string) :
  filter (fun y => negb (Str.mem y (ks ++ [p]))) l =
  filter (fun y => negb (Str.mem y ks)) (filter (fun y => negb (String.eqb y p)) l).
Proof.
  induction l as [| y rest IH]; [reflexivity |].
  cbn [filter]. rewrite mem_app_one.
  destruct (String.eqb y p); cbn [negb]; rewrite IH.
  - now rewrite orb_true_r.
  - cbn [filter]. now rewrite orb_false_r.
Qed.

Lemma filter_not_in_member (ks l : list string) (p : string) :
  Str.mem p ks = true ->
  filter (fun y => negb (Str.mem y ks)) (filter (fun y => negb (String.eqb y p)) l) =
  filter (fun y => negb (Str.mem y ks)) l.
Proof.
  intros Hp. induction l as [| y rest IH]; [reflexivity |].
  cbn [filter]. destruct (String.eqb y p) eqn:E; cbn [negb filter]; rewrite IH.
  - apply String.eqb_eq in E. subst y. now rewrite Hp.
  - reflexivity.
Qed.

Lemma select_keys_acc (props : list string) (metadata acc d : dict) :
  select_properties props metadata acc = inr d ->
  Dict.keys d =
  (Dict.keys acc
   ++ filter (fun y => negb (Str.mem y (Dict.keys acc))) (first_occurrences props))%list.
Proof.
  revert acc. induction props as [| p rest IH]; intros acc; cbn [select_properties].
  - intros H. injection H as <-. cbn [first_occurrences filter]. now rewrite app_nil_r.
  - destruct (Dict.get p metadata) as [v |]; [| discriminate].
    intros H. rewrite (IH _ H), keys_set. cbn [first_occurrences filter].
    unfold Dict.contains. destruct (Str.mem p (Dict.keys acc)) eqn:Hp; cbn [negb].
    + now rewrite filter_not_in_member.
    + rewrite filter_not_in_snoc, <- app_assoc. reflexivity.
Qed.

Lemma filter_all (A : Type) (l : list A) : filter (fun _ => true) l = l.
Proof. induction l as [| x rest IH]; [reflexivity | cbn; now rewrite IH]. Qed.

Lemma first_occurrences_incl (l : list string) (x : string) :
  In x (first_occurrences l) -> In x l.
Proof.
  induction l as [| y rest IH]; [contradiction |].
  cbn [first_occurrences]. intros [-> | Hin]; [now left |].
  right. apply IH. apply filter_In in Hin. tauto.
Qed.

Lemma set_entries (k p : string) (v v' : Value) (d : dict) :
  In (k, v) (Dict.set p v' d) -> (k, v) = (p, v') \/ In (k, v) d.
Proof.
  induction d as [| [k0 v0] rest IH]; cbn [Dict.set].
  - intros [H | []]. now left.
  - destruct (String.eqb p k0) eqn:E.
    + apply String.eqb_eq in E. subst k0.
      intros [H | H]; [left; now symmetry | right; now right].
    + intros [H | H]; [right; now left |].
      destruct (IH H) as [H' | H']; [now left | right; now right].
Qed.

Lemma select_entries (props : list string) (metadata acc d : dict) :
  select_properties props metadata acc = inr d ->
  (forall k v, In (k, v) acc -> Dict.get k metadata = Some v) ->
  forall k v, In (k, v) d -> Dict.get k metadata = Some v.
Proof.
  revert acc. induction props as [| p rest IH]; intros acc; cbn [select_properties].
  - intros H. now injection H as <-.
  - destruct (Dict.get p metadata) as [v' |] eqn:Hp; [| discriminate].
    intros H Hacc. apply (IH _ H). intros k v Hin.
    destruct (set_entries _ _ _ _ _ Hin) as [Heq | Hold]; [| now apply Hacc].
    injection Heq as -> ->. exact Hp.
Qed.

Lemma select_properties_keys_aux (props : list string) (metadata d : dict) :
  select_properties props metadata [] = inr d ->
  Dict.keys d = first_occurrences props
  /\ (forall k v, In (k, v) d -> Dict.get k metadata = Some v)
  /\ (forall k v, In (k, v) d -> In k props).
Proof.
  intros Hsel. pose proof (select_keys_acc _ _ _ _ Hsel) as Hkeys.
  cbn [Dict.keys List.map app] in Hkeys.
  change (fun y : string => negb (Str.mem y [])) with (fun _ : string => true) in Hkeys.
  rewrite filter_all in Hkeys. split; [exact Hkeys | split].
  - apply (select_entries _ _ _ _ Hsel). intros ? ? [].
  - intros k v Hin. apply first_occurrences_incl. rewrite <- Hkeys.
    apply (in_map fst) in Hin. exact Hin.
Qed.

(** X12: when every requested name is present, the filtered record has
    the requested names as its keys, each once, in the order of their first
    request, with the values of the gathered record. *)
Theorem select_properties_keys (props : list string) (metadata d : dict) :
  select_properties props metadata [] = inr d ->
  Dict.keys d = first_occurrences props
  /\ (forall k v, In (k, v) d -> In k props /\ Dict.get k metadata = Some v)
  /\ (forall k, In k props -> Dict.get k d = Dict.get k metadata).
Proof.
  intros Hsel.
  destruct (select_properties_keys_aux _ _ _ Hsel) as [Hkeys [Hentries Hin]].
  split; [exact Hkeys | split].
  - intros k v Hkv. split; [now apply (Hin k v) | now apply Hentries].
  - intros k Hk. rewrite (select_get _ _ _ _ k Hsel).
    apply mem_true_iff in Hk. now rewrite Hk.
Qed.

Lemma select_properties_keys_witness :
  let d := [("version", VStr "1.2.3"); ("summary", VStr "this is a test package")] in
  Dict.keys d = ["version"; "summary"]
  /\ (forall k v, In (k, v) d ->
                  In k ["version"; "summary"; "version"]
                  /\ Dict.get k Fixtures.TEST_DATA = Some v)
  /\ (forall k, In k ["version"; "summary"; "version"] ->
                Dict.get k d = Dict.get k Fixtures.TEST_DATA).
Proof.
  intros d.
  apply (select_properties_keys ["version"; "summary"; "version"] Fixtures.TEST_DATA d).
  reflexivity.
Defined.

Lemma select_inl (props : list string) (metadata acc : dict) (prop : string) :
  select_properties props metadata acc = inl prop ->
  In prop props /\ Dict.contains prop metadata = false.
Proof.
  revert acc. induction props as [| p rest IH]; intros acc; cbn [select_properties].
  - discriminate.
  - destruct (Dict.get p metadata) as [v |] eqn:Hp.
    + intros H. destruct (IH _ H) as [Hin Hc]. split; [now right | exact Hc].
    + intros H. injection H as <-. split; [now left | now apply get_none_iff].
Qed.

Lemma select_inr (props : list string) (metadata acc d : dict) :
  select_properties props metadata acc = inr d ->
  forall q, In q props -> Dict.contains q metadata = true.
Proof.
  revert acc. induction props as [| p rest IH]; intros acc; cbn [select_properties].
  - intros _ q [].
  - destruct (Dict.get p metadata) as [v |] eqn:Hp; [| discriminate].
    intros H q [<- | Hq]; [| now apply (IH _ H)].
    apply get_some_iff. now exists v.
Qed.

Lemma filter_keep_all (A : Type) (f : A -> bool) (l : list A) :
  (forall x, In x l -> f x = true) -> filter f l = l.
Proof.
  induction l as [| x rest IH]; intros H; [reflexivity |].
  cbn [filter]. rewrite (H x (or_introl eq_refl)), IH; [reflexivity |].
  intros y Hy. apply H. now right.
Qed.

Lemma flat_map_entries (metadata d : dict) :
  (forall k v, In (k, v) d -> Dict.get k metadata = Some v) ->
  flat_map (fun kv => display_normal_block (fst kv) (snd kv)) d =
  flat_map (fun k => match Dict.get k metadata with
                     | Some v => display_normal_block k v
                     | None => []
                     end) (Dict.keys d).
Proof.
  induction d as [| [k v] rest IH]; intros H; [reflexivity |].
  cbn [flat_map Dict.keys List.map fst snd].
  rewrite (H k v (or_introl eq_refl)). f_equal.
  apply IH. intros k' v' Hin. apply H. now right.
Qed.

Lemma split_join (c : ascii) (items : list string) :
  items <> [] ->
  Forall (fun x => count_char c x = 0) items ->
  Str.split c (Str.join (String c EmptyString) items) = items.
Proof.
  intros Hne Hall. induction Hall as [| x rest Hx Hrest IH]; [congruence |].
  destruct rest as [| y rest'].
  - cbn [Str.join]. now apply split_no_sep.
  - change (Str.join (String c EmptyString) (x :: y :: rest'))
      with (x ++ String c (Str.join (String c EmptyString) (y :: rest'))).
    rewrite (split_first_sep _ _ _ Hx), IH; [reflexivity | discriminate].
Qed.

Section HandleMore.

Variable canonicalize_name : string -> string.
Variable package_eq : Package -> Package -> bool.
Variable from_name : string -> option Distribution.

Local Abbreviation resolve :=
  (_get_package_from_dependency canonicalize_name package_eq).
Local Abbreviation run := (handle canonicalize_name package_eq from_name).
Local Abbreviation gather := (inspect_metadata from_name).

(** X13: in normal mode with a non-empty list of requested names that are
    all present, the command prints, after what gathering printed, the
    block of every requested property, once each and in the order of first
    request, whether or not its key is on the skip-list, and exits 0. *)
Theorem normal_mode_filtered (poetry : Poetry) (dep : option string)
        (opts : Options) (pkg : Package) :
  resolve poetry dep = Ok pkg ->
  opt_list_properties opts = false ->
  opt_json opts = false ->
  opt_compact opts = false ->
  opt_property opts <> [] ->
  let metadata := snd (gather pkg) in
  (forall q, In q (opt_property opts) -> Dict.contains q metadata = true) ->
  run poetry dep opts =
  (List.app (fst (gather pkg))
     (flat_map (fun k => match Dict.get k metadata with
                         | Some v => display_normal_block k v
                         | None => []
                         end)
               (first_occurrences (opt_property opts))),
   Ok 0).
Proof.
  intros Hres Hlist Hjson Hcompact Hne metadata Hall.
  rewrite (handle_resolved _ _ _ _ _ _ _ Hres), Hlist, Hjson, Hcompact. cbv zeta.
  fold metadata.
  destruct (select_all_present _ _ [] Hall) as [d Hd]. rewrite Hd.
  pose proof (select_nonempty _ _ _ _ Hne Hd) as Hd'.
  destruct (select_properties_keys_aux _ _ _ Hd) as [Hkeys [Hentries Hin]].
  assert (Hor : dict_or d metadata = d) by (destruct d; [congruence | reflexivity]).
  rewrite Hor, (display_normal_filtered _ _ Hne).
  rewrite filter_keep_all.
  - now rewrite (flat_map_entries metadata d Hentries), Hkeys.
  - intros [k v] Hkv. apply mem_true_iff. now apply (Hin k v).
Qed.

(** X14: once the package is resolved, the command exits with code 1
    exactly when [--list-properties] is not given and some requested name
    is absent from the gathered metadata; and whenever it exits, the code
    is 0 or 1. *)
Theorem exit_code_one_iff (poetry : Poetry) (dep : option string)
        (opts : Options) (pkg : Package) :
  resolve poetry dep = Ok pkg ->
  let metadata := snd (gather pkg) in
  (snd (run poetry dep opts) = Ok 1 <->
   opt_list_properties opts = false
   /\ exists q, In q (opt_property opts) /\ Dict.contains q metadata = false)
  /\ (forall n, snd (run poetry dep opts) = Ok n -> n = 0 \/ n = 1).
Proof.
  intros Hres metadata.
  rewrite (handle_resolved _ _ _ _ _ _ _ Hres). cbv zeta. fold metadata.
  destruct (opt_list_properties opts).
  - cbn [snd]. split.
    + split; [discriminate | intros [H _]; discriminate].
    + intros n H. injection H as <-. now left.
  - destruct (select_properties (opt_property opts) metadata []) as [prop | d] eqn:Hsel.
    + cbn [snd]. split.
      * split; [| reflexivity]. intros _. split; [reflexivity |].
        exists prop. exact (select_inl _ _ _ _ Hsel).
      * intros n H. injection H as <-. now right.
    + assert (Hzero : forall n,
                 snd (if opt_json opts
                      then ((fst (gather pkg) ++ [JsonDump (dict_or d metadata)])%list, Ok 0)
                      else if opt_compact opts
                           then match build_rows_from_metadata (dict_or d metadata) with
                                | Ok rows => ((fst (gather pkg) ++ [TableRender rows])%list, Ok 0)
                                | Raise e => (fst (gather pkg), Raise e)
                                end
                           else ((fst (gather pkg)
                                  ++ display_normal (dict_or d metadata) (opt_property opts))%list,
                                 Ok 0)) = Ok n -> n = 0).
      { intros n. destruct (opt_json opts); [intros H; now injection H |].
        destruct (opt_compact opts); [| intros H; now injection H].
        destruct (build_rows_from_metadata (dict_or d metadata));
          [intros H; now injection H | discriminate]. }
      split.
      * split.
        -- intros H. apply Hzero in H. discriminate.
        -- intros [_ [q [Hq Habs]]].
           rewrite (select_inr _ _ _ _ Hsel q Hq) in Habs. discriminate.
      * intros n H. left. now apply Hzero.
Qed.

(** X15: a non-empty dependency name that no locked package matches
    (by canonical name) aborts the command before anything is printed, in
    every mode: whatever the options, [--list-properties] and [--json]
    included, the outcome is the [ValueError] carrying the name as it was
    given, with an empty console trace (no metadata is gathered, so no
    warning either) and no exit code. *)
Theorem handle_unknown_dependency (poetry : Poetry) (d : string) (opts : Options) :
  d <> EmptyString ->
  package_eq (package poetry) (package poetry) = true ->
  (forall p, In p (locked_packages poetry) -> name p <> canonicalize_name d) ->
  run poetry (Some d) opts =
  ([], Raise (ValueError ("Package '" ++ d ++ "' not found"))).
Proof.
  intros Hd Hrefl Hno. unfold handle.
  rewrite (resolve_missing canonicalize_name package_eq poetry d Hd Hno Hrefl).
  reflexivity.
Qed.

(** X16: the second line that [--list-properties] prints can be read back:
    when no key of the gathered record contains a newline, taking the
    [<info>] tags off the line, cutting it at its newlines and taking the
    "- " off every piece gives exactly the keys of the record, skip-list
    keys included, in record order. *)
Theorem list_properties_round_trip (poetry : Poetry) (dep : option string)
        (opts : Options) (pkg : Package) :
  resolve poetry dep = Ok pkg ->
  opt_list_properties opts = true ->
  Forall (fun k => count_char (ascii_of_nat 10) k = 0)
         (Dict.keys (snd (gather pkg))) ->
  exists line,
    run poetry dep opts =
    (List.app (fst (gather pkg))
       [Line ("<b>Available properties for <info>" ++ name pkg
              ++ "</info> are:</b>");
        Line line],
     Ok 0)
    /\ parse_property_list line = Some (Dict.keys (snd (gather pkg))).
Proof.
  intros Hres Hlist Hall.
  rewrite (handle_resolved _ _ _ _ _ _ _ Hres), Hlist. cbv zeta.
  eexists. split; [reflexivity |].
  unfold parse_property_list. cbn [append strip_prefix Ascii.eqb Bool.eqb].
  rewrite strip_suffix_app.
  change (List.map (fun x => "- " ++ x) (Dict.keys (snd (gather pkg))))
    with (List.map bullet (Dict.keys (snd (gather pkg)))).
  unfold Str.nl. rewrite split_join.
  - clear. induction (Dict.keys (snd (gather pkg))) as [| k rest IH]; [reflexivity |].
    cbn [List.map strip_bullets]. rewrite IH. reflexivity.
  - destruct (inspect_metadata_keys_prefix from_name pkg) as [rest Hrest].
    rewrite Hrest. discriminate.
  - apply Forall_map.
    apply (Forall_impl _ (P := fun k => count_char (ascii_of_nat 10) k = 0));
      [| exact Hall].
    intros k Hk. exact Hk.
Qed.

End HandleMore.

Lemma normal_mode_filtered_witness :
  handle Fixtures.canonicalize_name Fixtures.package_eq
         (Fixtures.mocked Fixtures.TEST_DATA []) Fixtures.poetry None
         {| opt_json := false; opt_compact := false;
            opt_list_properties := false;
            opt_property := ["version"; "summary"; "version"] |} =
  ([Line "<b><info>Version</info></b>"; Line "<c2> 1.2.3</c2>"; Line EmptyString;
    Line "<b><info>Summary</info></b>"; Line "<c2> this is a test package</c2>";
    Line EmptyString],
   Ok 0).
Proof.
  apply (normal_mode_filtered
           Fixtures.canonicalize_name Fixtures.package_eq
           (Fixtures.mocked Fixtures.TEST_DATA []) Fixtures.poetry None
           {| opt_json := false; opt_compact := false;
              opt_list_properties := false;
              opt_property := ["version"; "summary"; "version"] |}
           Fixtures.simple_project); try reflexivity.
  - discriminate.
  - intros q [<- | [<- | [<- | []]]]; reflexivity.
Defined.

Lemma exit_code_one_iff_witness :
  let opts := {| opt_json := true; opt_compact := false;
                 opt_list_properties := false;
                 opt_property := ["name"; "homepage"] |} in
  let out := handle Fixtures.canonicalize_name Fixtures.package_eq
                    (Fixtures.mocked Fixtures.TEST_DATA []) Fixtures.poetry
                    (Some "cachy") opts in
  (snd out = Ok 1 <->
   opt_list_properties opts = false
   /\ exists q, In q (opt_property opts)
                /\ Dict.contains q
                     (snd (inspect_metadata (Fixtures.mocked Fixtures.TEST_DATA [])
                                            Fixtures.cachy_010)) = false)
  /\ (forall n, snd out = Ok n -> n = 0 \/ n = 1).
Proof.
  intros opts out.
  apply (exit_code_one_iff
           Fixtures.canonicalize_name Fixtures.package_eq
           (Fixtures.mocked Fixtures.TEST_DATA []) Fixtures.poetry
           (Some "cachy") opts Fixtures.cachy_010).
  reflexivity.
Defined.

Lemma handle_unknown_dependency_witness :
  handle Fixtures.canonicalize_name Fixtures.package_eq Fixtures.not_installed
         Fixtures.poetry (Some "No.Such_Package")
         {| opt_json := true; opt_compact := false;
            opt_list_properties := true; opt_property := ["name"] |} =
  ([], Raise (ValueError "Package 'No.Such_Package' not found")).
Proof.
  apply (handle_unknown_dependency
           Fixtures.canonicalize_name Fixtures.package_eq Fixtures.not_installed
           Fixtures.poetry "No.Such_Package").
  - discriminate.
  - reflexivity.
  - intros p [<- | [<- | [<- | []]]]; discriminate.
Defined.

Lemma list_properties_round_trip_witness :
  exists line,
    handle Fixtures.canonicalize_name Fixtures.package_eq
           (Fixtures.mocked Fixtures.TEST_DATA []) Fixtures.poetry None
           {| opt_json := false; opt_compact := false;
              opt_list_properties := true; opt_property := [] |} =
    ([Line "<b>Available properties for <info>simple-project</info> are:</b>";
      Line line],
     Ok 0)
    /\ parse_property_list line =
       Some ["name"; "version"; "package_description"; "metadata_version";
             "summary"; "author_email"; "author"].
Proof.
  apply (list_properties_round_trip
           Fixtures.canonicalize_name Fixtures.package_eq
           (Fixtures.mocked Fixtures.TEST_DATA []) Fixtures.poetry None
           {| opt_json := false; opt_compact := false;
              opt_list_properties := true; opt_property := [] |}
           Fixtures.simple_project eq_refl eq_refl).
  repeat constructor.
Defined.




(** ** Headers *)

Lemma prettify_chars (c : ascii) :
  let f := fun c => if Ascii.eqb c "_"%char then " "%char else c in
  Ascii.eqb (Str.upper_char (f c)) "_"%char = false
  /\ Ascii.eqb (Str.lower_char (f c)) "_"%char = false
  /\ Str.upper_char (f (Str.upper_char (f c))) = Str.upper_char (f c)
  /\ Str.lower_char (f (Str.lower_char (f c))) = Str.lower_char (f c).
Proof.
  destruct c as [b0 b1 b2 b3 b4 b5 b6 b7].
  destruct b0, b1, b2, b3, b4, b5, b6, b7; repeat split.
Qed.

Lemma map_length (f : ascii -> ascii) (s : string) :
  String.length (Str.map f s) = String.length s.
Proof. induction s as [| c r IH]; [reflexivity | cbn; now rewrite IH]. Qed.

(** X17: on an ASCII key, the header that [prettify] gives has the length
    of the key and no underscore, and prettifying it again changes nothing. *)
Theorem prettify_shape (s : string) :
  Str.forallb Str.is_ascii s = true ->
  String.length (prettify s) = String.length s
  /\ count_char "_"%char (prettify s) = 0
  /\ prettify (prettify s) = prettify s.
Proof.
  intros _. unfold prettify, Str.capitalize, Str.lower, Str.replace_char.
  destruct s as [| c r]; [repeat split |].
  cbn [Str.map]. split; [| split].
  - cbn [String.length]. now rewrite !map_length.
  - cbn [count_char]. rewrite (proj1 (prettify_chars c)).
    induction r as [| c' r' IH]; [reflexivity |].
    cbn [Str.map count_char].
    rewrite (proj1 (proj2 (prettify_chars c'))). exact IH.
  - f_equal; [apply (prettify_chars c) |].
    induction r as [| c' r' IH]; [reflexivity |].
    cbn [Str.map]. f_equal; [apply (prettify_chars c') | exact IH].
Qed.

Lemma prettify_shape_witness :
  String.length (prettify "package_description") = 19
  /\ count_char "_"%char (prettify "package_description") = 0
  /\ prettify (prettify "package_description") = "Package description".
Proof.
  apply (prettify_shape "package_description"). reflexivity.
Defined.

(** ** Instances of the two characterisations of success *)

Lemma display_pretty_urls_ok_iff_witness :
  (exists text,
      display_pretty_urls ["Homepage, https://example.org";
                           "Docs, https://example.org/docs"] = Ok text)
  /\ ~ (exists text, display_pretty_urls ["Docs, https://example.org/a,b"] = Ok text).
Proof.
  split.
  - apply (proj2 (display_pretty_urls_ok_iff
                    ["Homepage, https://example.org";
                     "Docs, https://example.org/docs"])).
    repeat constructor.
  - intros H.
    apply (proj1 (display_pretty_urls_ok_iff ["Docs, https://example.org/a,b"])) in H.
    inversion H as [| x l Hx Hl]. discriminate Hx.
Defined.

Lemma build_rows_ok_iff_witness :
  exists rows,
    build_rows_from_metadata
      [("name", VStr "demo");
       ("project_url", VList ["Homepage, https://example.org"]);
       ("summary", VList ["a,b,c"])] = Ok rows.
Proof.
  apply (proj2 (build_rows_ok_iff
                  [("name", VStr "demo");
                   ("project_url", VList ["Homepage, https://example.org"]);
                   ("summary", VList ["a,b,c"])])).
  intros l [H | [H | [H | []]]]; try discriminate H.
  injection H as <-. repeat constructor.
Defined.
